(** * The barter-negotiation engine

    A shallow embedding of the vendor barter routes
    (src/routes/vendor-barter.routes.ts) and of the admin barter routes
    (src/routes/admin-barter.routes.ts), followed by the properties of the
    offer state machine, of the value snapshots and of the offer projection.

    Conventions of the embedding:
    - the relational store behind Prisma is a record of finite maps (tables
      keyed by their primary key) and a list of item rows;
    - a route handler is a computation in a store-passing monad with
      exceptions; the [try { ... } catch] around every handler body turns an
      exception into the reply 500;
    - JavaScript numbers holding cents and quantities are integers ([Z]);
      Prisma [Int] columns are 32-bit, and a write that does not fit throws;
    - identifiers generated by the database client for new rows are inputs
      of the handlers that insert;
    - the columns [createdAt] and [updatedAt], maintained by the database
      client, and the relations that are only passed through to the caller
      ([parentOffer], [counterOffers]) are left out. *)

From stdpp Require Import gmap strings list fin_maps pretty.

Open Scope string_scope.
Open Scope list_scope.
Open Scope Z_scope.

(** ** Data model (prisma migration 20251227181847_add_new_features) *)

Inductive BarterStatus :=
| DRAFT | SENT | COUNTERED | ACCEPTED | REJECTED
| CANCELLED | IN_PROGRESS | COMPLETED | DISPUTED.

Inductive CashGapDirection := INITIATOR_PAYS | RECIPIENT_PAYS.

Inductive VendorStatus := PENDING | APPROVED | SUSPENDED.

#[global] Instance BarterStatus_eq_dec : EqDecision BarterStatus.
Proof. solve_decision. Defined.

#[global] Instance CashGapDirection_eq_dec : EqDecision CashGapDirection.
Proof. solve_decision. Defined.

#[global] Instance VendorStatus_eq_dec : EqDecision VendorStatus.
Proof. solve_decision. Defined.

(** A row of table "Vendor" (the columns the engine reads). *)
Record Vendor := {
  businessName : string;
  email : string;
  vendorStatus : VendorStatus;
  isActive : bool
}.

(** A row of table "Product" (the columns the engine reads). *)
Record Product := {
  vendorId : string;
  name : string;
  priceUsdCents : Z;
  isAvailable : bool;
  isDeleted : bool
}.

(** A row of table "BarterOffer"; its [id] is the key of the table. *)
Record BarterOffer := {
  initiatorVendorId : string;
  recipientVendorId : string;
  status : BarterStatus;
  cashGapCents : Z;
  cashGapDirection : option CashGapDirection;
  message : option string;
  counterOfMessage : option string;
  parentOfferId : option string;
  fulfilledByInitiator : bool;
  fulfilledByRecipient : bool;
  disputeReason : option string;
  disputeResolvedBy : option string;
  disputeResolution : option string
}.

(** A row of table "BarterItem". *)
Record BarterItem := {
  itemId : string;
  offerId : string;
  productId : string;
  quantity : Z;
  valueCents : Z;
  isOffered : bool
}.

Record Store := {
  vendors : gmap string Vendor;
  products : gmap string Product;
  offers : gmap string BarterOffer;
  items : list BarterItem
}.

Definition withOffers (s : Store) (m : gmap string BarterOffer) : Store :=
  {| vendors := vendors s; products := products s; offers := m; items := items s |}.

Definition withItems (s : Store) (l : list BarterItem) : Store :=
  {| vendors := vendors s; products := products s; offers := offers s; items := l |}.

(** ** Request bodies and their zod schemas *)

Record ItemInput := {
  in_productId : string;
  in_quantity : Z;
  in_isOffered : bool
}.

Record CreateBody := {
  cb_recipientVendorId : string;
  cb_items : list ItemInput;
  cb_cashGapCents : option Z;
  cb_cashGapDirection : option CashGapDirection;
  cb_message : option string
}.

(** In the update body [cashGapDirection] is optional and nullable:
    [None] is an absent field, [Some None] is an explicit [null]. *)
Record UpdateBody := {
  ub_items : option (list ItemInput);
  ub_cashGapCents : option Z;
  ub_cashGapDirection : option (option CashGapDirection);
  ub_message : option string
}.

Record CounterBody := {
  kb_items : list ItemInput;
  kb_cashGapCents : option Z;
  kb_cashGapDirection : option CashGapDirection;
  kb_message : option string
}.

Record DisputeBody := { db_reason : string }.

Record ResolveBody := { rb_resolution : string; rb_newStatus : BarterStatus }.

Record StatusBody := { sb_status : BarterStatus }.

(** [z.string().min(1)] *)
Definition min1 (x : string) : bool := bool_decide (x ≠ "").

(** [cashGapCents: z.number().int().min(0).default(0)] and its optional
    variant: an absent field passes. *)
Definition minZero (x : option Z) : bool :=
  match x with Some c => bool_decide (0 ≤ c) | None => true end.

Definition barterItemSchema (i : ItemInput) : bool :=
  min1 (in_productId i) && bool_decide (1 ≤ in_quantity i).

(** [z.array(barterItemSchema).min(1)] *)
Definition itemsSchema (l : list ItemInput) : bool :=
  bool_decide (l ≠ []) && forallb barterItemSchema l.

Definition createOfferSchema (b : CreateBody) : bool :=
  min1 (cb_recipientVendorId b) && itemsSchema (cb_items b) && minZero (cb_cashGapCents b).

Definition updateOfferSchema (b : UpdateBody) : bool :=
  match ub_items b with Some l => itemsSchema l | None => true end
  && minZero (ub_cashGapCents b).

Definition counterOfferSchema (b : CounterBody) : bool :=
  itemsSchema (kb_items b) && minZero (kb_cashGapCents b).

Definition disputeSchema (b : DisputeBody) : bool := min1 (db_reason b).

Definition resolveDisputeSchema (b : ResolveBody) : bool :=
  min1 (rb_resolution b) && bool_decide (rb_newStatus b ∈ [CANCELLED; COMPLETED]).

(** [updateStatusSchema] accepts each of the nine states. *)
Definition updateStatusSchema (b : StatusBody) : bool :=
  bool_decide (sb_status b ∈
    [DRAFT; SENT; COUNTERED; ACCEPTED; REJECTED; CANCELLED; IN_PROGRESS; COMPLETED; DISPUTED]).

(** ** The handler monad: store passing with exceptions

    [None] is a thrown exception. Writes made before the exception stay in
    the store unless they were made inside [transaction]. *)

Definition Db (A : Type) : Type := Store → Store * option A.

#[global] Instance Db_ret : MRet Db := λ A a s, (s, Some a).

#[global] Instance Db_bind : MBind Db := λ A B k m s,
  match m s with
  | (s', Some a) => k a s'
  | (s', None) => (s', None)
  end.

Definition throw {A} : Db A := λ s, (s, None).

(** [prisma.$transaction]: all or nothing. *)
Definition transaction {A} (m : Db A) : Db A := λ s,
  match m s with
  | (s', Some a) => (s', Some a)
  | (_, None) => (s, None)
  end.

(** ** Prisma operations *)

(** A Prisma [Int] is a 32-bit signed integer. *)
Definition fitsInt (z : Z) : bool := bool_decide (-2147483648 ≤ z ≤ 2147483647).

(** The [data] object of an update: the listed fields are assigned, in
    order; the other fields keep their value. *)
Inductive Assign :=
| SetStatus (v : BarterStatus)
| SetCashGapCents (v : Z)
| SetCashGapDirection (v : option CashGapDirection)
| SetMessage (v : string)
| SetFulfilledByInitiator (v : bool)
| SetFulfilledByRecipient (v : bool)
| SetDisputeReason (v : string)
| SetDisputeResolvedBy (v : string)
| SetDisputeResolution (v : string).

Definition assign (o : BarterOffer) (a : Assign) : BarterOffer := {|
  initiatorVendorId := initiatorVendorId o;
  recipientVendorId := recipientVendorId o;
  status := match a with SetStatus v => v | _ => status o end;
  cashGapCents := match a with SetCashGapCents v => v | _ => cashGapCents o end;
  cashGapDirection :=
    match a with SetCashGapDirection v => v | _ => cashGapDirection o end;
  message := match a with SetMessage v => Some v | _ => message o end;
  counterOfMessage := counterOfMessage o;
  parentOfferId := parentOfferId o;
  fulfilledByInitiator :=
    match a with SetFulfilledByInitiator v => v | _ => fulfilledByInitiator o end;
  fulfilledByRecipient :=
    match a with SetFulfilledByRecipient v => v | _ => fulfilledByRecipient o end;
  disputeReason := match a with SetDisputeReason v => Some v | _ => disputeReason o end;
  disputeResolvedBy :=
    match a with SetDisputeResolvedBy v => Some v | _ => disputeResolvedBy o end;
  disputeResolution :=
    match a with SetDisputeResolution v => Some v | _ => disputeResolution o end
|}.

Definition assignAll (o : BarterOffer) (data : list Assign) : BarterOffer :=
  fold_left assign data o.

Definition assignFits (a : Assign) : bool :=
  match a with SetCashGapCents v => fitsInt v | _ => true end.

(** [prisma.barterOffer.findUnique({ where: { id } })] *)
Definition findUnique (id : string) : Db (option BarterOffer) :=
  λ s, (s, Some (offers s !! id)).

(** [prisma.barterOffer.update({ where: { id }, data })]: throws when the
    row is missing or a value does not fit its column. *)
Definition update (id : string) (data : list Assign) : Db BarterOffer := λ s,
  match offers s !! id with
  | Some o =>
      if forallb assignFits data
      then let o' := assignAll o data in (withOffers s (<[id := o']> (offers s)), Some o')
      else (s, None)
  | None => (s, None)
  end.

(** [prisma.product.findMany({ where: { id: { in: productIds } } })]
    followed by [new Map(products.map((p) => [p.id, p]))]. *)
Definition findProducts (productIds : list string) : Db (gmap string Product) :=
  λ s, (s, Some (filter (λ kv, kv.1 ∈ productIds) (products s))).

(** [items.map((item) => ({ ..., valueCents:
    productMap.get(item.productId)!.priceUsdCents, ... }))]: reading
    [priceUsdCents] of a product that is not in the map throws. The rows get
    the identifiers [ids k], [ids (k+1)], ... *)
Fixpoint buildItems (productMap : gmap string Product) (oid : string)
    (ids : nat → string) (k : nat) (l : list ItemInput) : option (list BarterItem) :=
  match l with
  | [] => Some []
  | item :: rest =>
      match productMap !! in_productId item with
      | None => None
      | Some p =>
          match buildItems productMap oid ids (S k) rest with
          | None => None
          | Some rows =>
              Some ({| itemId := ids k; offerId := oid;
                       productId := in_productId item;
                       quantity := in_quantity item;
                       valueCents := priceUsdCents p;
                       isOffered := in_isOffered item |} :: rows)
          end
      end
  end.

Definition rowFits (r : BarterItem) : bool := fitsInt (quantity r).

(** [prisma.barterItem.deleteMany({ where: { offerId } })] *)
Definition deleteMany (oid : string) : Db unit := λ s,
  (withItems s (filter (λ r, offerId r ≠ oid) (items s)), Some tt).

(** [prisma.barterItem.createMany({ data })] *)
Definition createMany (rows : list BarterItem) : Db unit := λ s,
  if forallb rowFits rows then (withItems s (items s ++ rows), Some tt) else (s, None).

(** [prisma.barterOffer.create({ data: { ..., items: { create } } })]: one
    write of the offer and its items; throws on a primary-key clash or on a
    value that does not fit its column. *)
Definition create (id : string) (o : BarterOffer) (rows : list BarterItem) : Db BarterOffer :=
  λ s,
  match offers s !! id with
  | Some _ => (s, None)
  | None =>
      if fitsInt (cashGapCents o) && forallb rowFits rows
      then ({| vendors := vendors s; products := products s;
               offers := <[id := o]> (offers s); items := items s ++ rows |}, Some o)
      else (s, None)
  end.

(** ** Offer projection *)

Record VendorSummary := { v_id : string; v_businessName : string; v_email : string }.

Record ProductSummary := { p_id : string; p_name : string; p_priceUsdCents : Z }.

(** An item row with its [product] relation loaded. *)
Record ItemWithProduct := { row : BarterItem; product : option ProductSummary }.

(** What [getOfferWithDetails] returns: the offer row with its relations. *)
Record OfferWithDetails := {
  id : string;
  offer : BarterOffer;
  initiatorVendor : option VendorSummary;
  recipientVendor : option VendorSummary;
  offerItems : list ItemWithProduct
}.

Definition vendorSummary (s : Store) (vid : string) : option VendorSummary :=
  v ← vendors s !! vid;
  Some {| v_id := vid; v_businessName := businessName v; v_email := email v |}.

Definition productSummary (s : Store) (pid : string) : option ProductSummary :=
  p ← products s !! pid;
  Some {| p_id := pid; p_name := name p; p_priceUsdCents := priceUsdCents p |}.

Definition getOfferWithDetails (oid : string) : Db (option OfferWithDetails) := λ s,
  (s, Some (o ← offers s !! oid;
            Some {| id := oid; offer := o;
                    initiatorVendor := vendorSummary s (initiatorVendorId o);
                    recipientVendor := vendorSummary s (recipientVendorId o);
                    offerItems :=
                      map (λ r, {| row := r; product := productSummary s (productId r) |})
                          (filter (λ r, offerId r = oid) (items s)) |})).

Record ItemView := {
  iv_id : string;
  iv_product : option ProductSummary;
  iv_quantity : Z;
  iv_valueCents : Z;
  totalCents : Z
}.

Record TransformedOffer := {
  t_id : string;
  t_status : BarterStatus;
  isInitiator : bool;
  t_initiatorVendor : option VendorSummary;
  t_recipientVendor : option VendorSummary;
  offeredItems : list ItemView;
  requestedItems : list ItemView;
  offeredTotalCents : Z;
  requestedTotalCents : Z;
  t_cashGapCents : Z;
  t_cashGapDirection : option CashGapDirection;
  t_message : option string;
  t_counterOfMessage : option string;
  t_fulfilledByInitiator : bool;
  t_fulfilledByRecipient : bool;
  t_disputeReason : option string;
  t_disputeResolution : option string;
  t_parentOfferId : option string
}.

(** [l.reduce((sum, i) => sum + i.valueCents * i.quantity, 0)] *)
Definition reduceTotal (l : list ItemWithProduct) : Z :=
  fold_left (λ sum i, sum + valueCents (row i) * quantity (row i)) l 0.

Definition itemView (i : ItemWithProduct) : ItemView := {|
  iv_id := itemId (row i);
  iv_product := product i;
  iv_quantity := quantity (row i);
  iv_valueCents := valueCents (row i);
  totalCents := valueCents (row i) * quantity (row i)
|}.

Definition transformOffer (o : OfferWithDetails) (currentVendorId : string) : TransformedOffer :=
  let offered := List.filter (λ i, isOffered (row i)) (offerItems o) in
  let requested := List.filter (λ i, negb (isOffered (row i))) (offerItems o) in
  let offeredTotal := reduceTotal offered in
  let requestedTotal := reduceTotal requested in
  {| t_id := id o;
     t_status := status (offer o);
     isInitiator := bool_decide (initiatorVendorId (offer o) = currentVendorId);
     t_initiatorVendor := initiatorVendor o;
     t_recipientVendor := recipientVendor o;
     offeredItems := map itemView offered;
     requestedItems := map itemView requested;
     offeredTotalCents := offeredTotal;
     requestedTotalCents := requestedTotal;
     t_cashGapCents := cashGapCents (offer o);
     t_cashGapDirection := cashGapDirection (offer o);
     t_message := message (offer o);
     t_counterOfMessage := counterOfMessage (offer o);
     t_fulfilledByInitiator := fulfilledByInitiator (offer o);
     t_fulfilledByRecipient := fulfilledByRecipient (offer o);
     t_disputeReason := disputeReason (offer o);
     t_disputeResolution := disputeResolution (offer o);
     t_parentOfferId := parentOfferId (offer o) |}.

(** ** Replies *)

Inductive Reply :=
| Fail (code : nat) (msg : string)
| Done (code : nat) (msg : string) (o : BarterOffer)
| View (o : TransformedOffer).

(** The [try]/[catch] of every handler. *)
Definition route (h : Db Reply) (s : Store) : Store * Reply :=
  match h s with
  | (s', Some r) => (s', r)
  | (s', None) => (s', Fail 500 "Internal server error")
  end.

(** ** Vendor routes *)

(** GET /api/vendor/barter/offers/:id *)
Definition getOffer (vendorId offerId : string) : Db Reply :=
  found ← getOfferWithDetails offerId;
  match found with
  | None => mret (Fail 404 "Offer not found")
  | Some o =>
      if bool_decide (initiatorVendorId (offer o) ≠ vendorId)
         && bool_decide (recipientVendorId (offer o) ≠ vendorId)
      then mret (Fail 403 "You are not part of this offer")
      else mret (View (transformOffer o vendorId))
  end.

(** The validation loop of POST /offers: the reply of the first item that
    fails, [None] when every item passes. *)
Fixpoint validateItems (productMap : gmap string Product)
    (initiator recipient : string) (l : list ItemInput) : option Reply :=
  match l with
  | [] => None
  | item :: rest =>
      match productMap !! in_productId item with
      | None => Some (Fail 400 ("Product " +:+ in_productId item +:+ " not found"))
      | Some p =>
          if isDeleted p || negb (isAvailable p)
          then Some (Fail 400 ("Product " +:+ in_productId item +:+ " is not available"))
          else if in_isOffered item && bool_decide (vendorId p ≠ initiator)
          then Some (Fail 400 "You can only offer your own products")
          else if negb (in_isOffered item) && bool_decide (vendorId p ≠ recipient)
          then Some (Fail 400 "You can only request products from the recipient vendor")
          else validateItems productMap initiator recipient rest
      end
  end.

Definition findVendor (vid : string) : Db (option Vendor) := λ s, (s, Some (vendors s !! vid)).

(** [cashGapDirection: cashGapCents > 0 ? cashGapDirection : null]; an
    absent direction is stored as null. *)
Definition gapDirection (cents : Z) (d : option CashGapDirection) : option CashGapDirection :=
  if bool_decide (cents > 0) then d else None.

(** POST /api/vendor/barter/offers *)
Definition createOffer (newId : string) (ids : nat → string)
    (initiator : string) (body : CreateBody) : Db Reply :=
  if negb (createOfferSchema body) then mret (Fail 400 "Invalid input") else
  let recipient := cb_recipientVendorId body in
  let cents := default 0 (cb_cashGapCents body) in
  if bool_decide (recipient = initiator)
  then mret (Fail 400 "Cannot create offer to yourself") else
  recipientVendor ← findVendor recipient;
  match recipientVendor with
  | None => mret (Fail 400 "Recipient vendor not found or not active")
  | Some v =>
      if bool_decide (vendorStatus v ≠ APPROVED) || negb (isActive v)
      then mret (Fail 400 "Recipient vendor not found or not active") else
      productMap ← findProducts (map in_productId (cb_items body));
      match validateItems productMap initiator recipient (cb_items body) with
      | Some reply => mret reply
      | None =>
          match buildItems productMap newId ids 0 (cb_items body) with
          | None => throw
          | Some rows =>
              o ← create newId
                    {| initiatorVendorId := initiator;
                       recipientVendorId := recipient;
                       status := DRAFT;
                       cashGapCents := cents;
                       cashGapDirection := gapDirection cents (cb_cashGapDirection body);
                       message := cb_message body;
                       counterOfMessage := None;
                       parentOfferId := None;
                       fulfilledByInitiator := false;
                       fulfilledByRecipient := false;
                       disputeReason := None;
                       disputeResolvedBy := None;
                       disputeResolution := None |} rows;
              mret (Done 201 "Offer created as draft" o)
          end
      end
  end.

(** An optional field of a [data] object: [...(x !== undefined && { x })]. *)
Definition optField {A} (f : A → Assign) (x : option A) : list Assign :=
  match x with Some v => [f v] | None => [] end.

(** PATCH /api/vendor/barter/offers/:id *)
Definition updateOffer (ids : nat → string) (vendor oid : string) (body : UpdateBody) : Db Reply :=
  found ← findUnique oid;
  match found with
  | None => mret (Fail 404 "Offer not found")
  | Some o =>
      if bool_decide (initiatorVendorId o ≠ vendor)
      then mret (Fail 403 "Only the initiator can update the offer") else
      if bool_decide (status o ≠ DRAFT)
      then mret (Fail 400 "Only draft offers can be updated") else
      if negb (updateOfferSchema body) then mret (Fail 400 "Invalid input") else
      _ ← match ub_items body with
          | Some l =>
              productMap ← findProducts (map in_productId l);
              match buildItems productMap oid ids 0 l with
              | None => throw
              | Some rows => transaction (_ ← deleteMany oid; createMany rows)
              end
          | None => mret tt
          end;
      updated ← update oid (optField SetCashGapCents (ub_cashGapCents body)
                            ++ optField SetCashGapDirection (ub_cashGapDirection body)
                            ++ optField SetMessage (ub_message body));
      mret (Done 200 "Offer updated" updated)
  end.

(** [prisma.barterOffer.findUnique({ where: { id }, include: { items: true } })] *)
Definition findUniqueWithItems (oid : string) : Db (option (BarterOffer * list BarterItem)) :=
  λ s, (s, Some (o ← offers s !! oid; Some (o, filter (λ r, offerId r = oid) (items s)))).

(** POST /api/vendor/barter/offers/:id/send *)
Definition sendOffer (vendor oid : string) : Db Reply :=
  found ← findUniqueWithItems oid;
  match found with
  | None => mret (Fail 404 "Offer not found")
  | Some (o, rows) =>
      if bool_decide (initiatorVendorId o ≠ vendor)
      then mret (Fail 403 "Only the initiator can send the offer") else
      if bool_decide (status o ≠ DRAFT)
      then mret (Fail 400 "Only draft offers can be sent") else
      if bool_decide (length rows = 0%nat)
      then mret (Fail 400 "Cannot send an empty offer") else
      updated ← update oid [SetStatus SENT];
      mret (Done 200 "Offer sent successfully" updated)
  end.

(** POST /api/vendor/barter/offers/:id/accept *)
Definition acceptOffer (vendor oid : string) : Db Reply :=
  found ← findUnique oid;
  match found with
  | None => mret (Fail 404 "Offer not found")
  | Some o =>
      if bool_decide (recipientVendorId o ≠ vendor)
      then mret (Fail 403 "Only the recipient can accept the offer") else
      if negb (bool_decide (status o ∈ [SENT; COUNTERED]))
      then mret (Fail 400 "This offer cannot be accepted") else
      updated ← update oid [SetStatus ACCEPTED];
      mret (Done 200 "Offer accepted! You can now proceed with fulfillment." updated)
  end.

(** POST /api/vendor/barter/offers/:id/reject *)
Definition rejectOffer (vendor oid : string) : Db Reply :=
  found ← findUnique oid;
  match found with
  | None => mret (Fail 404 "Offer not found")
  | Some o =>
      if bool_decide (recipientVendorId o ≠ vendor)
      then mret (Fail 403 "Only the recipient can reject the offer") else
      if negb (bool_decide (status o ∈ [SENT; COUNTERED]))
      then mret (Fail 400 "This offer cannot be rejected") else
      updated ← update oid [SetStatus REJECTED];
      mret (Done 200 "Offer rejected" updated)
  end.

(** POST /api/vendor/barter/offers/:id/counter *)
Definition counterOffer (newId : string) (ids : nat → string)
    (vendor oid : string) (body : CounterBody) : Db Reply :=
  found ← findUnique oid;
  match found with
  | None => mret (Fail 404 "Offer not found")
  | Some originalOffer =>
      if bool_decide (recipientVendorId originalOffer ≠ vendor)
      then mret (Fail 403 "Only the recipient can counter the offer") else
      if negb (bool_decide (status originalOffer ∈ [SENT; COUNTERED]))
      then mret (Fail 400 "This offer cannot be countered") else
      if negb (counterOfferSchema body) then mret (Fail 400 "Invalid input") else
      let cents := default 0 (kb_cashGapCents body) in
      productMap ← findProducts (map in_productId (kb_items body));
      created ← transaction (
        _ ← update oid [SetStatus COUNTERED];
        match buildItems productMap newId ids 0 (kb_items body) with
        | None => throw
        | Some rows =>
            create newId
              {| initiatorVendorId := vendor;
                 recipientVendorId := initiatorVendorId originalOffer;
                 status := SENT;
                 cashGapCents := cents;
                 cashGapDirection := gapDirection cents (kb_cashGapDirection body);
                 message := kb_message body;
                 counterOfMessage := Some ("Counter-offer to offer " +:+ oid);
                 parentOfferId := Some oid;
                 fulfilledByInitiator := false;
                 fulfilledByRecipient := false;
                 disputeReason := None;
                 disputeResolvedBy := None;
                 disputeResolution := None |} rows
        end);
      mret (Done 201 "Counter-offer sent" created)
  end.

(** POST /api/vendor/barter/offers/:id/cancel *)
Definition cancelOffer (vendor oid : string) : Db Reply :=
  found ← findUnique oid;
  match found with
  | None => mret (Fail 404 "Offer not found")
  | Some o =>
      if bool_decide (initiatorVendorId o ≠ vendor)
      then mret (Fail 403 "Only the initiator can cancel the offer") else
      if negb (bool_decide (status o ∈ [DRAFT; SENT]))
      then mret (Fail 400 "This offer cannot be cancelled") else
      updated ← update oid [SetStatus CANCELLED];
      mret (Done 200 "Offer cancelled" updated)
  end.

(** POST /api/vendor/barter/offers/:id/fulfill *)
Definition fulfillOffer (vendor oid : string) : Db Reply :=
  found ← findUnique oid;
  match found with
  | None => mret (Fail 404 "Offer not found")
  | Some o =>
      let isInit := bool_decide (initiatorVendorId o = vendor) in
      let isRecipient := bool_decide (recipientVendorId o = vendor) in
      if negb isInit && negb isRecipient
      then mret (Fail 403 "You are not part of this offer") else
      if bool_decide (status o ≠ ACCEPTED) && bool_decide (status o ≠ IN_PROGRESS)
      then mret (Fail 400 "Only accepted or in-progress offers can be fulfilled") else
      if (if isInit then fulfilledByInitiator o else fulfilledByRecipient o)
      then mret (Fail 400 "You have already marked your side as fulfilled") else
      let updateData :=
        if isInit then [SetFulfilledByInitiator true] else [SetFulfilledByRecipient true] in
      let willBeComplete :=
        (isInit && fulfilledByRecipient o) || (isRecipient && fulfilledByInitiator o) in
      let updateData :=
        if willBeComplete then updateData ++ [SetStatus COMPLETED]
        else if bool_decide (status o = ACCEPTED) then updateData ++ [SetStatus IN_PROGRESS]
        else updateData in
      updated ← update oid updateData;
      mret (Done 200
              (if willBeComplete
               then "Barter completed! Both parties have fulfilled their obligations."
               else "Your side marked as fulfilled. Waiting for the other party.")
              updated)
  end.

(** POST /api/vendor/barter/offers/:id/dispute *)
Definition disputeOffer (vendor oid : string) (body : DisputeBody) : Db Reply :=
  if negb (disputeSchema body) then mret (Fail 400 "Invalid input") else
  found ← findUnique oid;
  match found with
  | None => mret (Fail 404 "Offer not found")
  | Some o =>
      if bool_decide (initiatorVendorId o ≠ vendor) && bool_decide (recipientVendorId o ≠ vendor)
      then mret (Fail 403 "You are not part of this offer") else
      if negb (bool_decide (status o ∈ [ACCEPTED; IN_PROGRESS]))
      then mret (Fail 400 "Only accepted or in-progress offers can be disputed") else
      updated ← update oid [SetStatus DISPUTED; SetDisputeReason (db_reason body)];
      mret (Done 200 "Dispute raised. An admin will review this case." updated)
  end.

(** ** Admin routes *)

Definition statusWord (st : BarterStatus) : string :=
  match st with
  | DRAFT => "DRAFT" | SENT => "SENT" | COUNTERED => "COUNTERED"
  | ACCEPTED => "ACCEPTED" | REJECTED => "REJECTED" | CANCELLED => "CANCELLED"
  | IN_PROGRESS => "IN_PROGRESS" | COMPLETED => "COMPLETED" | DISPUTED => "DISPUTED"
  end.

Definition lowerWord (st : BarterStatus) : string :=
  match st with
  | DRAFT => "draft" | SENT => "sent" | COUNTERED => "countered"
  | ACCEPTED => "accepted" | REJECTED => "rejected" | CANCELLED => "cancelled"
  | IN_PROGRESS => "in_progress" | COMPLETED => "completed" | DISPUTED => "disputed"
  end.

(** PATCH /api/admin/barter/:id/resolve, for the admin [adminId] that the
    middleware [requireAuth] and [requireAdminAuth] let through. *)
Definition resolveDispute (adminId oid : string) (body : ResolveBody) : Db Reply :=
  if negb (resolveDisputeSchema body) then mret (Fail 400 "Invalid input") else
  found ← findUnique oid;
  match found with
  | None => mret (Fail 404 "Offer not found")
  | Some o =>
      if bool_decide (status o ≠ DISPUTED)
      then mret (Fail 400 "Only disputed offers can be resolved") else
      updated ← update oid [SetStatus (rb_newStatus body);
                            SetDisputeResolvedBy adminId;
                            SetDisputeResolution (rb_resolution body)];
      mret (Done 200 ("Dispute resolved. Offer marked as "
                      +:+ lowerWord (rb_newStatus body) +:+ ".") updated)
  end.

(** PATCH /api/admin/barter/:id/status (admin override) *)
Definition forceStatus (oid : string) (body : StatusBody) : Db Reply :=
  if negb (updateStatusSchema body) then mret (Fail 400 "Invalid input") else
  found ← findUnique oid;
  match found with
  | None => mret (Fail 404 "Offer not found")
  | Some o =>
      updated ← update oid [SetStatus (sb_status body)];
      mret (Done 200 ("Offer status updated to " +:+ statusWord (sb_status body)) updated)
  end.

(** ** Parties and operations *)

Inductive Party := Initiator | Recipient.

Definition partyVendor (o : BarterOffer) (p : Party) : string :=
  match p with Initiator => initiatorVendorId o | Recipient => recipientVendorId o end.

Definition ownFlag (o : BarterOffer) (p : Party) : bool :=
  match p with Initiator => fulfilledByInitiator o | Recipient => fulfilledByRecipient o end.

Definition otherFlag (o : BarterOffer) (p : Party) : bool :=
  match p with Initiator => fulfilledByRecipient o | Recipient => fulfilledByInitiator o end.

(** The offer [o] with its state replaced. *)
Definition withStatus (o : BarterOffer) (st : BarterStatus) : BarterOffer := {|
  initiatorVendorId := initiatorVendorId o;
  recipientVendorId := recipientVendorId o;
  status := st;
  cashGapCents := cashGapCents o;
  cashGapDirection := cashGapDirection o;
  message := message o;
  counterOfMessage := counterOfMessage o;
  parentOfferId := parentOfferId o;
  fulfilledByInitiator := fulfilledByInitiator o;
  fulfilledByRecipient := fulfilledByRecipient o;
  disputeReason := disputeReason o;
  disputeResolvedBy := disputeResolvedBy o;
  disputeResolution := disputeResolution o
|}.

(** The offer [o] with the fulfilled flag of party [p] set. *)
Definition withOwnFlag (o : BarterOffer) (p : Party) : BarterOffer := {|
  initiatorVendorId := initiatorVendorId o;
  recipientVendorId := recipientVendorId o;
  status := status o;
  cashGapCents := cashGapCents o;
  cashGapDirection := cashGapDirection o;
  message := message o;
  counterOfMessage := counterOfMessage o;
  parentOfferId := parentOfferId o;
  fulfilledByInitiator :=
    match p with Initiator => true | Recipient => fulfilledByInitiator o end;
  fulfilledByRecipient :=
    match p with Initiator => fulfilledByRecipient o | Recipient => true end;
  disputeReason := disputeReason o;
  disputeResolvedBy := disputeResolvedBy o;
  disputeResolution := disputeResolution o
|}.

(** The convergence rule in the words of the specification: COMPLETED when
    the other party's flag was already true, IN_PROGRESS when the prior
    state was ACCEPTED, the prior state otherwise. *)
Definition convergedStatus (o : BarterOffer) (p : Party) : BarterStatus :=
  if otherFlag o p then COMPLETED
  else if bool_decide (status o = ACCEPTED) then IN_PROGRESS
  else status o.

Definition fulfillMessage (o : BarterOffer) (p : Party) : string :=
  if otherFlag o p
  then "Barter completed! Both parties have fulfilled their obligations."
  else "Your side marked as fulfilled. Waiting for the other party.".

(** The actions of a party on an existing offer. *)
Inductive PartyAction :=
| Send
| Accept
| Reject
| Counter (newId : string) (ids : nat → string) (body : CounterBody)
| Cancel
| Fulfill
| Dispute (body : DisputeBody).

Definition perform (a : PartyAction) (vendor oid : string) : Store → Store * Reply :=
  route match a with
        | Send => sendOffer vendor oid
        | Accept => acceptOffer vendor oid
        | Reject => rejectOffer vendor oid
        | Counter newId ids body => counterOffer newId ids vendor oid body
        | Cancel => cancelOffer vendor oid
        | Fulfill => fulfillOffer vendor oid
        | Dispute body => disputeOffer vendor oid body
        end.

(** The transition table of the specification: the states from which each
    party action is permitted. *)
Definition tablePermits (a : PartyAction) (st : BarterStatus) : bool :=
  match a, st with
  | Send, DRAFT => true
  | Accept, (SENT | COUNTERED) => true
  | Reject, (SENT | COUNTERED) => true
  | Counter _ _ _, (SENT | COUNTERED) => true
  | Cancel, (DRAFT | SENT) => true
  | Fulfill, (ACCEPTED | IN_PROGRESS) => true
  | Dispute _, (ACCEPTED | IN_PROGRESS) => true
  | _, _ => false
  end.

(** Every operation the engine exposes. *)
Inductive Op :=
| OpCreate (newId : string) (ids : nat → string) (vendor : string) (body : CreateBody)
| OpUpdate (ids : nat → string) (vendor oid : string) (body : UpdateBody)
| OpParty (a : PartyAction) (vendor oid : string)
| OpGet (vendor oid : string)
| OpResolve (adminId oid : string) (body : ResolveBody)
| OpForceStatus (oid : string) (body : StatusBody).

Definition run (op : Op) : Store → Store * Reply :=
  match op with
  | OpCreate newId ids vendor body => route (createOffer newId ids vendor body)
  | OpUpdate ids vendor oid body => route (updateOffer ids vendor oid body)
  | OpParty a vendor oid => perform a vendor oid
  | OpGet vendor oid => route (getOffer vendor oid)
  | OpResolve adminId oid body => route (resolveDispute adminId oid body)
  | OpForceStatus oid body => route (forceStatus oid body)
  end.

(** ** Notions used in the statements *)

(** The admin override. *)
Definition isForce (op : Op) : bool :=
  match op with OpForceStatus _ _ => true | _ => false end.



(** The counter-offer that answers [o] (stored under [oid]) with the terms
    of [body], acting as [vendor]. *)
Definition counterOf (vendor oid : string) (o : BarterOffer) (body : CounterBody) : BarterOffer := {|
  initiatorVendorId := vendor;
  recipientVendorId := initiatorVendorId o;
  status := SENT;
  cashGapCents := default 0 (kb_cashGapCents body);
  cashGapDirection :=
    gapDirection (default 0 (kb_cashGapCents body)) (kb_cashGapDirection body);
  message := kb_message body;
  counterOfMessage := Some ("Counter-offer to offer " +:+ oid);
  parentOfferId := Some oid;
  fulfilledByInitiator := false;
  fulfilledByRecipient := false;
  disputeReason := None;
  disputeResolvedBy := None;
  disputeResolution := None
|}.

(** The store after a counter: the predecessor is COUNTERED, the child and
    its item rows are inserted. *)
Definition countered (s : Store) (oid newId : string) (o child : BarterOffer)
    (rows : list BarterItem) : Store := {|
  vendors := vendors s;
  products := products s;
  offers := <[newId := child]> (<[oid := withStatus o COUNTERED]> (offers s));
  items := items s ++ rows
|}.

(** The item rows written for the submitted items: same product, quantity
    and side, attached to offer [oid], valued at the product's price in
    [s]. *)
Definition snapshotOf (s : Store) (oid : string) (i : ItemInput) (r : BarterItem) : Prop :=
  offerId r = oid
  ∧ productId r = in_productId i
  ∧ quantity r = in_quantity i
  ∧ isOffered r = in_isOffered i
  ∧ Some (valueCents r) = priceUsdCents <$> products s !! in_productId i.

(** What the validation loop of POST /offers asks of an item: its product
    exists, is neither soft-deleted nor unavailable, and belongs to the
    initiator when the item is offered, to the recipient when it is
    requested. *)
Definition itemAdmissible (s : Store) (initiator recipient : string) (i : ItemInput) : Prop :=
  ∃ p, products s !! in_productId i = Some p
       ∧ isDeleted p = false
       ∧ isAvailable p = true
       ∧ vendorId p = (if in_isOffered i then initiator else recipient).

(** The product of an item is missing, soft-deleted or unavailable. *)
Definition productUnusable (s : Store) (i : ItemInput) : Prop :=
  match products s !! in_productId i with
  | None => True
  | Some p => isDeleted p = true ∨ isAvailable p = false
  end.

(** ** A small marketplace used for the concrete runs

    Two approved vendors; vendor A sells yam and vendor B sells rice and a
    soft-deleted product; offer "o1" goes from A to B: one offered item of
    value 1000, one requested item of value 1500, cash gap 500 paid by the
    recipient. *)

Definition demoVendor (n : string) : Vendor :=
  {| businessName := n; email := n +:+ "@example.com";
     vendorStatus := APPROVED; isActive := true |}.

Definition demoProduct (owner n : string) (cents : Z) (deleted : bool) : Product :=
  {| vendorId := owner; name := n; priceUsdCents := cents;
     isAvailable := true; isDeleted := deleted |}.

Definition demoVendors : gmap string Vendor :=
  <["vendorA" := demoVendor "Ade Farms"]> (<["vendorB" := demoVendor "Bola Grains"]> ∅).

Definition demoProducts : gmap string Product :=
  <["pA" := demoProduct "vendorA" "yam" 1000 false]>
    (<["pB" := demoProduct "vendorB" "rice" 1500 false]>
       (<["pGone" := demoProduct "vendorB" "millet" 700 true]> ∅)).

Definition demoOffer (st : BarterStatus) (fi fr : bool) : BarterOffer := {|
  initiatorVendorId := "vendorA";
  recipientVendorId := "vendorB";
  status := st;
  cashGapCents := 500;
  cashGapDirection := Some RECIPIENT_PAYS;
  message := None;
  counterOfMessage := None;
  parentOfferId := None;
  fulfilledByInitiator := fi;
  fulfilledByRecipient := fr;
  disputeReason := None;
  disputeResolvedBy := None;
  disputeResolution := None
|}.

Definition demoRows : list BarterItem :=
  [ {| itemId := "i1"; offerId := "o1"; productId := "pA";
       quantity := 1; valueCents := 1000; isOffered := true |};
    {| itemId := "i2"; offerId := "o1"; productId := "pB";
       quantity := 1; valueCents := 1500; isOffered := false |} ].

Definition demoStore (st : BarterStatus) (fi fr : bool) : Store := {|
  vendors := demoVendors;
  products := demoProducts;
  offers := <["o1" := demoOffer st fi fr]> ∅;
  items := demoRows
|}.

Definition demoIds (k : nat) : string := "n" +:+ pretty k.

Definition inputItem (pid : string) (q : Z) (offered : bool) : ItemInput :=
  {| in_productId := pid; in_quantity := q; in_isOffered := offered |}.


(** A counter by vendor B: two bags of its rice for one yam. *)
Definition demoCounterBody : CounterBody := {|
  kb_items := [inputItem "pB" 2 true; inputItem "pA" 1 false];
  kb_cashGapCents := None;
  kb_cashGapDirection := None;
  kb_message := Some "two bags for one tuber"
|}.

(** A counter by vendor B that offers vendor A's yam. *)
Definition foreignCounterBody : CounterBody := {|
  kb_items := [inputItem "pA" 1 true];
  kb_cashGapCents := None;
  kb_cashGapDirection := None;
  kb_message := None
|}.

(** An update by vendor A that offers vendor B's rice. *)
Definition foreignUpdateBody : UpdateBody := {|
  ub_items := Some [inputItem "pB" 1 true];
  ub_cashGapCents := None;
  ub_cashGapDirection := None;
  ub_message := None
|}.

(** A creation by vendor B, towards vendor A, that offers vendor A's yam. *)
Definition foreignCreateBody : CreateBody := {|
  cb_recipientVendorId := "vendorA";
  cb_items := [inputItem "pA" 1 true];
  cb_cashGapCents := None;
  cb_cashGapDirection := None;
  cb_message := None
|}.

(** A counter by vendor B that offers its soft-deleted millet. *)
Definition deletedCounterBody : CounterBody := {|
  kb_items := [inputItem "pGone" 1 true];
  kb_cashGapCents := None;
  kb_cashGapDirection := None;
  kb_message := None
|}.

(** A counter by vendor B that names a product the catalog does not have. *)
Definition unknownCounterBody : CounterBody := {|
  kb_items := [inputItem "pNone" 1 true];
  kb_cashGapCents := None;
  kb_cashGapDirection := None;
  kb_message := None
|}.

(** The same two item lists in a creation by vendor B towards vendor A. *)
Definition deletedCreateBody : CreateBody := {|
  cb_recipientVendorId := "vendorA";
  cb_items := [inputItem "pGone" 1 true];
  cb_cashGapCents := None;
  cb_cashGapDirection := None;
  cb_message := None
|}.

Definition unknownCreateBody : CreateBody := {|
  cb_recipientVendorId := "vendorA";
  cb_items := [inputItem "pNone" 1 true];
  cb_cashGapCents := None;
  cb_cashGapDirection := None;
  cb_message := None
|}.



(** A creation with a cash gap paid by the recipient. *)
Definition directedGapBody : CreateBody := {|
  cb_recipientVendorId := "vendorB";
  cb_items := [inputItem "pA" 1 true; inputItem "pB" 1 false];
  cb_cashGapCents := Some 500;
  cb_cashGapDirection := Some RECIPIENT_PAYS;
  cb_message := None
|}.

(** ** The other routes of the two files *)

(** GET /api/vendor/barter/offers. The reply lists one entry per offer; its
    order (by [updatedAt]) is left out with that column, so the entries are
    kept by offer id. *)

(** A vendor relation loaded with [select: { id, businessName }]. *)
Record VendorName := { vn_id : string; vn_businessName : string }.

Record OfferSummary := {
  os_status : BarterStatus;
  os_isInitiator : bool;
  otherVendor : option VendorName;
  itemCount : nat;
  offeredCount : nat;
  requestedCount : nat;
  os_cashGapCents : Z;
  os_cashGapDirection : option CashGapDirection
}.

Definition vendorName (s : Store) (vid : string) : option VendorName :=
  v ← vendors s !! vid;
  Some {| vn_id := vid; vn_businessName := businessName v |}.

(** The enum value a query string names, if any. *)
Definition wordStatus (w : string) : option BarterStatus :=
  if bool_decide (w = "DRAFT") then Some DRAFT
  else if bool_decide (w = "SENT") then Some SENT
  else if bool_decide (w = "COUNTERED") then Some COUNTERED
  else if bool_decide (w = "ACCEPTED") then Some ACCEPTED
  else if bool_decide (w = "REJECTED") then Some REJECTED
  else if bool_decide (w = "CANCELLED") then Some CANCELLED
  else if bool_decide (w = "IN_PROGRESS") then Some IN_PROGRESS
  else if bool_decide (w = "COMPLETED") then Some COMPLETED
  else if bool_decide (w = "DISPUTED") then Some DISPUTED
  else None.

(** The [where] object of the listing: [OR] of the two party columns, the
    status when the query gives one, and for [type] "sent" or "received" the
    one party column in place of the [OR]. *)
Definition listWhere (vendor : string) (st : option BarterStatus) (ty : option string)
    (o : BarterOffer) : bool :=
  match st with Some v => bool_decide (status o = v) | None => true end
  && (if bool_decide (ty = Some "sent") then bool_decide (initiatorVendorId o = vendor)
      else if bool_decide (ty = Some "received") then bool_decide (recipientVendorId o = vendor)
      else bool_decide (initiatorVendorId o = vendor)
           || bool_decide (recipientVendorId o = vendor)).

(** The entry of one offer. *)
Definition summarize (s : Store) (vendor oid : string) (o : BarterOffer) : OfferSummary :=
  let rows := filter (λ r, offerId r = oid) (items s) in
  {| os_status := status o;
     os_isInitiator := bool_decide (initiatorVendorId o = vendor);
     otherVendor :=
       if bool_decide (initiatorVendorId o = vendor)
       then vendorName s (recipientVendorId o)
       else vendorName s (initiatorVendorId o);
     itemCount := length rows;
     offeredCount := length (List.filter (λ r, isOffered r) rows);
     requestedCount := length (List.filter (λ r, negb (isOffered r)) rows);
     os_cashGapCents := cashGapCents o;
     os_cashGapDirection := cashGapDirection o |}.

(** The handler body: [if (status)] skips an absent or empty query value; a
    value that names no state makes the database client throw. *)
Definition listOffers (vendor : string) (qstatus qtype : option string)
    : Db (gmap string OfferSummary) :=
  let find (st : option BarterStatus) : Db (gmap string OfferSummary) :=
    λ s, (s, Some (map_imap (λ oid o, if listWhere vendor st qtype o
                                       then Some (summarize s vendor oid o)
                                       else None) (offers s))) in
  match qstatus with
  | None => find None
  | Some w =>
      if bool_decide (w = "") then find None
      else match wordStatus w with
           | Some st => find (Some st)
           | None => throw
           end
  end.

Inductive ListReply :=
| ListFail (code : nat) (msg : string)
| Listed (entries : gmap string OfferSummary).

(** The [try]/[catch] of the listing. *)
Definition listRoute (vendor : string) (qstatus qtype : option string) (s : Store)
    : Store * ListReply :=
  match listOffers vendor qstatus qtype s with
  | (s', Some entries) => (s', Listed entries)
  | (s', None) => (s', ListFail 500 "Internal server error")
  end.

(** GET /api/admin/barter/stats *)
Record Stats := {
  draft : nat;
  sent : nat;
  accepted : nat;
  inProgress : nat;
  completed : nat;
  disputed : nat;
  rejected : nat;
  cancelled : nat;
  total : nat
}.

(** [prisma.barterOffer.count({ where: { status } })] *)
Definition count (st : BarterStatus) : Db nat :=
  λ s, (s, Some (size (filter (λ kv : string * BarterOffer, status kv.2 = st) (offers s)))).

Definition getStats : Db Stats :=
  d ← count DRAFT;
  se ← count SENT;
  a ← count ACCEPTED;
  ip ← count IN_PROGRESS;
  c ← count COMPLETED;
  di ← count DISPUTED;
  r ← count REJECTED;
  ca ← count CANCELLED;
  mret {| draft := d; sent := se; accepted := a; inProgress := ip; completed := c;
          disputed := di; rejected := r; cancelled := ca;
          total := (d + se + a + ip + c + di + r + ca)%nat |}.

(** The user that [requireAuth] attaches to the request. *)
Inductive Role := USER | ADMIN.

#[global] Instance Role_eq_dec : EqDecision Role.
Proof. solve_decision. Defined.

Record User := { u_id : string; u_email : string; u_name : option string; role : Role }.

(** src/middleware/adminAuth.ts: [next] runs for an admin only. *)
Definition requireAdminAuth (user : option User) (next : User → Db Reply) : Db Reply :=
  match user with
  | None => mret (Fail 401 "Unauthenticated")
  | Some u =>
      if bool_decide (role u ≠ ADMIN) then mret (Fail 403 "Admin access required")
      else next u
  end.

(** The two writing admin routes behind their middleware. *)
Definition resolveRoute (user : option User) (oid : string) (body : ResolveBody)
    : Store → Store * Reply :=
  route (requireAdminAuth user (λ u, resolveDispute (u_id u) oid body)).

Definition forceRoute (user : option User) (oid : string) (body : StatusBody)
    : Store → Store * Reply :=
  route (requireAdminAuth user (λ _, forceStatus oid body)).

(** ** Notions used in the further statements *)

(** The item rows of an offer. *)
Definition rowsOf (s : Store) (oid : string) : list BarterItem :=
  filter (λ r, offerId r = oid) (items s).

(** What no operation takes from an offer: its parties, its lineage, and a
    fulfilled flag once it is set. *)
Definition keeps (o o' : BarterOffer) : Prop :=
  initiatorVendorId o' = initiatorVendorId o
  ∧ recipientVendorId o' = recipientVendorId o
  ∧ parentOfferId o' = parentOfferId o
  ∧ counterOfMessage o' = counterOfMessage o
  ∧ (fulfilledByInitiator o = true → fulfilledByInitiator o' = true)
  ∧ (fulfilledByRecipient o = true → fulfilledByRecipient o' = true).

(** One operation on the offers table: nothing, one row rewritten, one row
    inserted by a creation, or a counter. *)
Inductive offersStep (m m' : gmap string BarterOffer) : Prop :=
| StepNone : m' = m → offersStep m m'
| StepRewrite (oid : string) (o o' : BarterOffer) :
    m !! oid = Some o → keeps o o' → m' = <[oid := o']> m → offersStep m m'
| StepCreate (newId : string) (o' : BarterOffer) :
    m !! newId = None →
    status o' = DRAFT →
    initiatorVendorId o' ≠ recipientVendorId o' →
    m' = <[newId := o']> m → offersStep m m'
| StepCounter (oid newId : string) (o child : BarterOffer) :
    m !! oid = Some o →
    m !! newId = None →
    initiatorVendorId child = recipientVendorId o →
    recipientVendorId child = initiatorVendorId o →
    m' = <[newId := child]> (<[oid := withStatus o COUNTERED]> m) → offersStep m m'.

(** Every offer has two distinct parties. *)
Definition partiesDistinct (m : gmap string BarterOffer) : Prop :=
  ∀ oid o, m !! oid = Some o → initiatorVendorId o ≠ recipientVendorId o.

(** Every offer has at least one item row. *)
Definition offersHaveItems (s : Store) : Prop :=
  ∀ oid o, offers s !! oid = Some o → rowsOf s oid ≠ [].


(** The state a plain transition lands in. *)
Definition landing (a : PartyAction) : option BarterStatus :=
  match a with
  | Accept => Some ACCEPTED
  | Reject => Some REJECTED
  | Cancel => Some CANCELLED
  | _ => None
  end.

(** The party that the handler of a plain transition lets through. *)
Definition actor (a : PartyAction) (o : BarterOffer) : string :=
  match a with
  | Accept | Reject => recipientVendorId o
  | _ => initiatorVendorId o
  end.

(** Vendor A answers the counter of vendor B: its yam for one bag of rice. *)
Definition demoReplyBody : CounterBody := {|
  kb_items := [inputItem "pA" 1 true; inputItem "pB" 1 false];
  kb_cashGapCents := Some 200;
  kb_cashGapDirection := Some INITIATOR_PAYS;
  kb_message := None
|}.

Definition demoIds2 (k : nat) : string := "m" +:+ pretty k.


Definition demoAdmin : User :=
  {| u_id := "admin1"; u_email := "root@example.com"; u_name := None; role := ADMIN |}.

Definition demoShopper : User :=
  {| u_id := "user7"; u_email := "kemi@example.com"; u_name := Some "Kemi"; role := USER |}.

(** ** Basic facts about the store operations *)

Section StoreFacts.
Implicit Types (s : Store) (o : BarterOffer) (oid : string) (data : list Assign).

Lemma update_found s oid o data :
  offers s !! oid = Some o →
  forallb assignFits data = true →
  update oid data s
  = (withOffers s (<[oid := assignAll o data]> (offers s)), Some (assignAll o data)).
Proof. intros Ho Hfit. unfold update. by rewrite Ho, Hfit. Qed.

Lemma update_shape s oid data s' r :
  update oid data s = (s', r) →
  (s' = s ∧ r = None)
  ∨ ∃ o, offers s !! oid = Some o
         ∧ s' = withOffers s (<[oid := assignAll o data]> (offers s))
         ∧ r = Some (assignAll o data).
Proof.
  unfold update. destruct (offers s !! oid) as [o|] eqn:Ho.
  - destruct (forallb assignFits data); intros [= <- <-]; [right; eauto | by left].
  - intros [= <- <-]. by left.
Qed.

End StoreFacts.

(** ** Fulfillment *)

Section Fulfillment.
Context (s : Store) (oid : string) (o : BarterOffer).
Hypothesis Hfound : offers s !! oid = Some o.
Hypothesis Hstate : status o = ACCEPTED ∨ status o = IN_PROGRESS.
Hypothesis Hparties : initiatorVendorId o ≠ recipientVendorId o.

Lemma fulfill_guards_pass :
  bool_decide (status o ≠ ACCEPTED) && bool_decide (status o ≠ IN_PROGRESS) = false.
Proof. destruct Hstate as [-> | ->]; reflexivity. Qed.

Lemma fulfill_roles (p : Party) :
  bool_decide (initiatorVendorId o = partyVendor o p)
  = match p with Initiator => true | Recipient => false end
  ∧ bool_decide (recipientVendorId o = partyVendor o p)
    = match p with Initiator => false | Recipient => true end.
Proof.
  destruct p; cbn [partyVendor]; split;
    (by apply bool_decide_eq_true_2) || (apply bool_decide_eq_false_2; congruence).
Qed.

(** A second fulfill by the same party is refused. *)
Lemma fulfill_again (p : Party) :
  ownFlag o p = true →
  route (fulfillOffer (partyVendor o p) oid) s
  = (s, Fail 400 "You have already marked your side as fulfilled").
Proof.
  intros Hown.
  unfold route, fulfillOffer, mbind, Db_bind, findUnique, mret, Db_ret.
  rewrite Hfound. cbn zeta.
  destruct (fulfill_roles p) as [-> ->]. rewrite fulfill_guards_pass.
  destruct p; cbn [ownFlag negb andb] in *; by rewrite Hown.
Qed.

(** The first fulfill of a party sets its flag and moves the state. *)
Lemma fulfill_fresh (p : Party) :
  ownFlag o p = false →
  let o' := withStatus (withOwnFlag o p) (convergedStatus o p) in
  route (fulfillOffer (partyVendor o p) oid) s
  = (withOffers s (<[oid := o']> (offers s)), Done 200 (fulfillMessage o p) o').
Proof.
  intros Hown.
  unfold route, fulfillOffer, mbind, Db_bind, findUnique, mret, Db_ret.
  rewrite Hfound. cbn zeta.
  destruct (fulfill_roles p) as [-> ->]. rewrite fulfill_guards_pass.
  unfold convergedStatus, fulfillMessage.
  destruct p; cbn [ownFlag otherFlag negb andb orb] in *; rewrite Hown;
    [destruct (fulfilledByRecipient o) eqn:Hother
    |destruct (fulfilledByInitiator o) eqn:Hother];
    cbn [andb orb];
    try (by erewrite update_found by (done || reflexivity));
    (destruct Hstate as [Hst | Hst]; rewrite Hst; cbn;
     (erewrite update_found by (done || reflexivity));
     unfold assignAll; cbn; destruct o; simpl in *; by subst).
Qed.

End Fulfillment.

(** C1. For an offer in state ACCEPTED or IN_PROGRESS and a fulfill action
    by a party P of the offer: when P's own flag is already true the action
    is rejected and the store is unchanged; otherwise the stored offer
    becomes the same offer with P's flag set and with state COMPLETED when
    the other party's flag was already true, IN_PROGRESS when the prior
    state was ACCEPTED and the other flag false, and the prior state
    (IN_PROGRESS) otherwise. *)
Theorem fulfill_convergence (s : Store) (oid : string) (o : BarterOffer) (p : Party) :
  offers s !! oid = Some o →
  status o = ACCEPTED ∨ status o = IN_PROGRESS →
  initiatorVendorId o ≠ recipientVendorId o →
  route (fulfillOffer (partyVendor o p) oid) s
  = if ownFlag o p
    then (s, Fail 400 "You have already marked your side as fulfilled")
    else let o' := withStatus (withOwnFlag o p) (convergedStatus o p) in
         (withOffers s (<[oid := o']> (offers s)), Done 200 (fulfillMessage o p) o').
Proof.
  intros Ho Hst Hne. destruct (ownFlag o p) eqn:Hown.
  - by apply fulfill_again.
  - by apply fulfill_fresh.
Qed.

Lemma fulfill_convergence_witness :
  offers (demoStore IN_PROGRESS true false) !! "o1" = Some (demoOffer IN_PROGRESS true false)
  ∧ (status (demoOffer IN_PROGRESS true false) = ACCEPTED
     ∨ status (demoOffer IN_PROGRESS true false) = IN_PROGRESS)
  ∧ initiatorVendorId (demoOffer IN_PROGRESS true false)
    ≠ recipientVendorId (demoOffer IN_PROGRESS true false)
  ∧ route (fulfillOffer "vendorB" "o1") (demoStore IN_PROGRESS true false)
    = (withOffers (demoStore IN_PROGRESS true false)
         (<["o1" := demoOffer COMPLETED true true]> (offers (demoStore IN_PROGRESS true false))),
       Done 200 "Barter completed! Both parties have fulfilled their obligations."
         (demoOffer COMPLETED true true)).
Proof.
  assert (offers (demoStore IN_PROGRESS true false) !! "o1"
          = Some (demoOffer IN_PROGRESS true false)) as Ho by reflexivity.
  assert (initiatorVendorId (demoOffer IN_PROGRESS true false)
          ≠ recipientVendorId (demoOffer IN_PROGRESS true false)) as Hne by (cbn; congruence).
  split; [exact Ho |]. split; [by right |]. split; [exact Hne |].
  exact (fulfill_convergence _ "o1" _ Recipient Ho (or_intror eq_refl) Hne).
Defined.

(** The offer [o] once both parties have fulfilled. *)
Lemma both_fulfilled (o : BarterOffer) :
  withStatus (withOwnFlag (withStatus (withOwnFlag o Initiator) IN_PROGRESS) Recipient) COMPLETED
  = withStatus (withOwnFlag (withStatus (withOwnFlag o Recipient) IN_PROGRESS) Initiator) COMPLETED.
Proof. reflexivity. Qed.

Lemma fulfill_in_turn (s : Store) (oid : string) (o : BarterOffer) (p q : Party) :
  offers s !! oid = Some o →
  status o = ACCEPTED →
  fulfilledByInitiator o = false →
  fulfilledByRecipient o = false →
  initiatorVendorId o ≠ recipientVendorId o →
  p ≠ q →
  let first := route (fulfillOffer (partyVendor o p) oid) s in
  let second := route (fulfillOffer (partyVendor o q) oid) first.1 in
  let o1 := withStatus (withOwnFlag o p) IN_PROGRESS in
  let o2 := withStatus (withOwnFlag o1 q) COMPLETED in
  first = (withOffers s (<[oid := o1]> (offers s)),
           Done 200 "Your side marked as fulfilled. Waiting for the other party." o1)
  ∧ second = (withOffers s (<[oid := o2]> (offers s)),
              Done 200 "Barter completed! Both parties have fulfilled their obligations." o2).
Proof.
  intros Ho Hst Hfi Hfr Hne Hpq first second o1 o2.
  assert (first = (withOffers s (<[oid := o1]> (offers s)),
           Done 200 "Your side marked as fulfilled. Waiting for the other party." o1)) as H1.
  { subst first. rewrite (fulfill_fresh s oid o Ho (or_introl Hst) Hne p)
      by (destruct p; done).
    unfold fulfillMessage, convergedStatus.
    destruct p; cbn [otherFlag]; rewrite ?Hfi, ?Hfr, Hst; reflexivity. }
  split; [exact H1 |].
  subst second. rewrite H1. cbn [fst].
  change (partyVendor o q) with (partyVendor o1 q).
  rewrite (fulfill_fresh _ oid o1).
  - unfold fulfillMessage, convergedStatus, withOffers; cbn [offers vendors products items].
    rewrite insert_insert_eq.
    destruct p, q; try done; cbn [otherFlag o1 withStatus withOwnFlag fulfilledByInitiator
                                    fulfilledByRecipient]; reflexivity.
  - cbn. apply lookup_insert_eq.
  - by right.
  - exact Hne.
  - destruct p, q; try done; cbn; done.
Qed.

(** C8. For an offer in state ACCEPTED with both fulfilled flags false (and
    two distinct parties), the initiator's fulfill followed by the
    recipient's and the recipient's followed by the initiator's both
    succeed and leave the same store, in which the offer is COMPLETED with
    both flags true. *)
Theorem fulfill_commutes (s : Store) (oid : string) (o : BarterOffer) :
  offers s !! oid = Some o →
  status o = ACCEPTED →
  fulfilledByInitiator o = false →
  fulfilledByRecipient o = false →
  initiatorVendorId o ≠ recipientVendorId o →
  let ini := fulfillOffer (initiatorVendorId o) oid in
  let rec := fulfillOffer (recipientVendorId o) oid in
  let ir := route rec (route ini s).1 in
  let ri := route ini (route rec s).1 in
  ir.1 = ri.1
  ∧ (∃ o', offers ir.1 !! oid = Some o'
           ∧ status o' = COMPLETED
           ∧ fulfilledByInitiator o' = true
           ∧ fulfilledByRecipient o' = true
           ∧ ir.2 = Done 200 "Barter completed! Both parties have fulfilled their obligations." o'
           ∧ ri.2 = Done 200 "Barter completed! Both parties have fulfilled their obligations." o').
Proof.
  intros Ho Hst Hfi Hfr Hne ini rec ir ri.
  destruct (fulfill_in_turn s oid o Initiator Recipient Ho Hst Hfi Hfr Hne) as [_ Hir]; [done |].
  destruct (fulfill_in_turn s oid o Recipient Initiator Ho Hst Hfi Hfr Hne) as [_ Hri]; [done |].
  cbn [partyVendor] in Hir, Hri.
  subst ir ri ini rec. rewrite Hir, Hri. cbn [fst snd].
  rewrite <- (both_fulfilled o).
  split; [reflexivity |].
  eexists. split; [cbn; apply lookup_insert_eq |]. done.
Qed.

Lemma fulfill_commutes_witness :
  let s := demoStore ACCEPTED false false in
  let ir := route (fulfillOffer "vendorB" "o1") (route (fulfillOffer "vendorA" "o1") s).1 in
  let ri := route (fulfillOffer "vendorA" "o1") (route (fulfillOffer "vendorB" "o1") s).1 in
  offers s !! "o1" = Some (demoOffer ACCEPTED false false)
  ∧ ir.1 = ri.1
  ∧ ∃ o', offers ir.1 !! "o1" = Some o'
          ∧ status o' = COMPLETED
          ∧ fulfilledByInitiator o' = true
          ∧ fulfilledByRecipient o' = true
          ∧ ir.2 = Done 200 "Barter completed! Both parties have fulfilled their obligations." o'
          ∧ ri.2 = Done 200 "Barter completed! Both parties have fulfilled their obligations." o'.
Proof.
  intros s ir ri.
  assert (offers s !! "o1" = Some (demoOffer ACCEPTED false false)) as Ho by reflexivity.
  split; [exact Ho |].
  refine (fulfill_commutes s "o1" _ Ho eq_refl eq_refl eq_refl _).
  cbn; congruence.
Defined.

(** ** Rejected transitions *)

Ltac run_handler :=
  unfold perform, route, sendOffer, acceptOffer, rejectOffer, counterOffer, cancelOffer,
    fulfillOffer, disputeOffer, resolveDispute, forceStatus, updateOffer, getOffer,
    findUnique, findUniqueWithItems, getOfferWithDetails, mbind, Db_bind, mret, Db_ret;
  cbn beta.

(** An action that the table does not permit from the stored state is
    refused with 400 or 403, whoever attempts it, and writes nothing. *)
Lemma refused_once (a : PartyAction) (vendor oid : string) (s : Store) (o : BarterOffer) :
  offers s !! oid = Some o →
  tablePermits a (status o) = false →
  ∃ code msg, perform a vendor oid s = (s, Fail code msg) ∧ (code = 400 ∨ code = 403)%nat.
Proof.
  intros Ho Hno.
  destruct a; run_handler; rewrite ?Ho; cbn [option_bind mbind option_ret];
    try (destruct (negb (disputeSchema body)); [by eauto |]; rewrite Ho);
    repeat match goal with
           | |- context [bool_decide (?x ≠ vendor)] =>
               destruct (bool_decide (x ≠ vendor)); cbn [andb negb]
           | |- context [bool_decide (?x = vendor)] =>
               destruct (bool_decide (x = vendor)); cbn [andb negb]
           end;
    try (by eauto);
    destruct (status o); try discriminate Hno; cbn; by eauto.
Qed.

(** C7. A party action attempted from a state in which the transition table
    does not permit it is rejected with an error (400 or 403) and leaves the
    whole store, hence the offer's state and flags, unchanged; repeating the
    attempt any number of times leaves the store unchanged too. *)
Theorem rejected_transition_inert (a : PartyAction) (vendor oid : string)
    (s : Store) (o : BarterOffer) :
  offers s !! oid = Some o →
  tablePermits a (status o) = false →
  (∃ code msg, perform a vendor oid s = (s, Fail code msg) ∧ (code = 400 ∨ code = 403)%nat)
  ∧ offers (perform a vendor oid s).1 !! oid = Some o
  ∧ ∀ n : nat, Nat.iter n (λ st, (perform a vendor oid st).1) s = s.
Proof.
  intros Ho Hno.
  destruct (refused_once a vendor oid s o Ho Hno) as (code & msg & Hrun & Hcode).
  split; [by eauto |]. split; [by rewrite Hrun |].
  induction n as [| n IH]; [reflexivity |].
  by rewrite Nat.iter_succ, IH, Hrun.
Qed.

Lemma rejected_transition_inert_witness :
  let s := demoStore DRAFT false false in
  offers s !! "o1" = Some (demoOffer DRAFT false false)
  ∧ tablePermits Accept (status (demoOffer DRAFT false false)) = false
  ∧ (∃ code msg, perform Accept "vendorB" "o1" s = (s, Fail code msg)
                 ∧ (code = 400 ∨ code = 403)%nat)
  ∧ offers (perform Accept "vendorB" "o1" s).1 !! "o1" = Some (demoOffer DRAFT false false)
  ∧ ∀ n : nat, Nat.iter n (λ st, (perform Accept "vendorB" "o1" st).1) s = s.
Proof.
  intros s.
  assert (offers s !! "o1" = Some (demoOffer DRAFT false false)) as Ho by reflexivity.
  split; [exact Ho |]. split; [reflexivity |].
  exact (rejected_transition_inert Accept "vendorB" "o1" s _ Ho eq_refl).
Defined.

(** ** Dispute resolution *)



(** ** Offer projection *)




(** Reading an offer writes nothing. *)
Lemma getOffer_reads (vendor oid : string) (s : Store) : (route (getOffer vendor oid) s).1 = s.
Proof.
  run_handler. destruct (offers s !! oid) as [o |]; cbn; [| done].
  by destruct (_ && _).
Qed.



(** ** Counter-offers *)

Lemma productMap_lookup (s : Store) (pids : list string) (pid : string) :
  pid ∈ pids →
  filter (λ kv : string * Product, kv.1 ∈ pids) (products s) !! pid = products s !! pid.
Proof.
  intros Hin. destruct (products s !! pid) as [p |] eqn:Hp.
  - by apply map_lookup_filter_Some.
  - apply map_lookup_filter_None. by left.
Qed.



(** What the handler does once its guards have passed. *)
Lemma counter_run (s : Store) (newId : string) (ids : nat → string)
    (oid : string) (body : CounterBody) (o : BarterOffer) :
  offers s !! oid = Some o →
  status o = SENT ∨ status o = COUNTERED →
  counterOfferSchema body = true →
  route (counterOffer newId ids (recipientVendorId o) oid body) s
  = match buildItems (filter (λ kv : string * Product, kv.1 ∈ map in_productId (kb_items body))
                        (products s)) newId ids 0 (kb_items body),
          offers s !! newId with
    | Some rows, None =>
        let child := counterOf (recipientVendorId o) oid o body in
        if fitsInt (cashGapCents child) && forallb rowFits rows
        then (countered s oid newId o child rows, Done 201 "Counter-offer sent" child)
        else (s, Fail 500 "Internal server error")
    | _, _ => (s, Fail 500 "Internal server error")
    end.
Proof.
  intros Ho Hst Hbody. run_handler. rewrite Ho.
  rewrite (bool_decide_eq_false_2 (_ ≠ _)) by naive_solver.
  assert (bool_decide (status o ∈ [SENT; COUNTERED]) = true) as ->
    by (destruct Hst as [-> | ->]; reflexivity).
  rewrite Hbody. cbn [negb].
  unfold findProducts, transaction, mbind, Db_bind, throw.
  erewrite update_found by (done || reflexivity).
  destruct (buildItems _ newId ids 0 (kb_items body)) as [rows |]; [| by destruct (offers s !! newId)].
  unfold create. cbn [withOffers offers].
  destruct (decide (newId = oid)) as [-> | Hne].
  - by rewrite lookup_insert_eq, Ho.
  - rewrite lookup_insert_ne by done.
    destruct (offers s !! newId); [done |].
    cbn [cashGapCents counterOf]. by destruct (_ && _).
Qed.

Lemma buildItems_snapshot (s : Store) (pm : gmap string Product) (oid : string)
    (ids : nat → string) (l : list ItemInput) (k : nat) (rows : list BarterItem) :
  (∀ i, i ∈ l → pm !! in_productId i = products s !! in_productId i) →
  buildItems pm oid ids k l = Some rows →
  Forall2 (snapshotOf s oid) l rows.
Proof.
  revert k rows. induction l as [| i l IH]; intros k rows Hpm; cbn [buildItems].
  - intros [= <-]. constructor.
  - destruct (pm !! in_productId i) as [p |] eqn:Hp; [| done].
    destruct (buildItems pm oid ids (S k) l) as [rest |] eqn:Hrest; [| done].
    intros [= <-]. constructor.
    + unfold snapshotOf; cbn. rewrite <- Hpm by left. by rewrite Hp.
    + eapply IH; [| done]. intros j Hj. apply Hpm. by right.
Qed.

Lemma productMap_agrees (s : Store) (l : list ItemInput) (i : ItemInput) :
  i ∈ l →
  filter (λ kv : string * Product, kv.1 ∈ map in_productId l) (products s) !! in_productId i
  = products s !! in_productId i.
Proof. intros Hi. apply productMap_lookup. by apply list_elem_of_fmap_2. Qed.

(** Whatever the request, a counter either writes nothing and replies with
    an error, or marks the predecessor COUNTERED and inserts the child and
    its rows together. *)
Lemma counter_atomic (s : Store) (newId : string) (ids : nat → string)
    (vendor oid : string) (body : CounterBody) (s' : Store) (r : Reply) :
  route (counterOffer newId ids vendor oid body) s = (s', r) →
  (s' = s ∧ ∃ code msg, r = Fail code msg)
  ∨ ∃ (o : BarterOffer) (rows : list BarterItem),
      offers s !! oid = Some o
      ∧ offers s !! newId = None
      ∧ vendor = recipientVendorId o
      ∧ (status o = SENT ∨ status o = COUNTERED)
      ∧ s' = countered s oid newId o (counterOf vendor oid o body) rows
      ∧ r = Done 201 "Counter-offer sent" (counterOf vendor oid o body).
Proof.
  destruct (offers s !! oid) as [o |] eqn:Ho;
    [| run_handler; rewrite Ho; intros [= <- <-]; left; by eauto].
  destruct (decide (vendor = recipientVendorId o)) as [-> | Hv].
  - destruct (bool_decide (status o ∈ [SENT; COUNTERED])) eqn:Hst.
    + assert (status o = SENT ∨ status o = COUNTERED) as Hst'
        by (destruct (status o); try done; (by left) || (by right)).
      destruct (counterOfferSchema body) eqn:Hbody.
      * rewrite (counter_run s newId ids oid body o Ho Hst' Hbody).
        destruct (buildItems _ newId ids 0 (kb_items body)) as [rows |];
          [| intros [= <- <-]; left; by eauto].
        destruct (offers s !! newId) eqn:Hnew; [intros [= <- <-]; left; by eauto |].
        cbn zeta. destruct (_ && _); intros [= <- <-]; [right | left]; by eauto 10.
      * run_handler. rewrite Ho, Hst, Hbody.
        rewrite (bool_decide_eq_false_2 (_ ≠ _)) by naive_solver.
        cbn. intros [= <- <-]. left; by eauto.
    + run_handler. rewrite Ho, Hst.
      rewrite (bool_decide_eq_false_2 (_ ≠ _)) by naive_solver.
      cbn. intros [= <- <-]. left; by eauto.
  - run_handler. rewrite Ho.
    rewrite (bool_decide_eq_true_2 (_ ≠ _)) by naive_solver.
    intros [= <- <-]. left; by eauto.
Qed.



(** ** Settled offers *)

Lemma update_elsewhere (s s' : Store) (oid' oid : string) (data : list Assign)
    (r : option BarterOffer) :
  update oid' data s = (s', r) → oid' ≠ oid → offers s' !! oid = offers s !! oid.
Proof.
  intros Hu Hne. apply update_shape in Hu as [[-> _] | (o & _ & -> & _)]; [done |].
  cbn. by rewrite lookup_insert_ne.
Qed.

Ltac split_handler oid :=
  repeat case_match; simplify_eq/=; try done;
  try (match goal with
       | H : update _ _ _ = _ |- _ =>
           apply update_elsewhere with (oid := oid) in H; [| done]
       end; cbn in *; congruence).

Section Elsewhere.
Context (s : Store) (oid : string) (o : BarterOffer).
Hypothesis Hfound : offers s !! oid = Some o.

(** A party action addressed to one offer leaves the other offers as they
    are. *)
Lemma party_elsewhere (a : PartyAction) (vendor oid' : string) :
  oid' ≠ oid → offers (perform a vendor oid' s).1 !! oid = Some o.
Proof.
  intros Hne.
  destruct a as [| | | newId ids body | | | body].
  4: { unfold perform.
       destruct (route (counterOffer newId ids vendor oid' body) s) as [s' r] eqn:Hrun.
       apply counter_atomic in Hrun as [[-> _] | (o1 & rows & Ho & Hnew & _ & _ & -> & _)];
         [done |].
       cbn [fst countered offers].
       rewrite !lookup_insert_ne; [done | done | congruence]. }
  all: run_handler; split_handler oid.
Qed.

Lemma create_elsewhere (newId : string) (ids : nat → string) (vendor : string)
    (body : CreateBody) :
  offers (route (createOffer newId ids vendor body) s).1 !! oid = Some o.
Proof.
  unfold route, createOffer, findVendor, findProducts, create, throw, mbind, Db_bind,
    mret, Db_ret.
  cbn beta. split_handler oid.
  rewrite lookup_insert_ne; [done | congruence].
Qed.

Lemma updateOffer_elsewhere (ids : nat → string) (vendor oid' : string) (body : UpdateBody) :
  oid' ≠ oid → offers (route (updateOffer ids vendor oid' body) s).1 !! oid = Some o.
Proof.
  intros Hne. run_handler.
  unfold findProducts, transaction, deleteMany, createMany, throw, mbind, Db_bind, mret, Db_ret.
  cbn beta. split_handler oid.
Qed.

Lemma admin_elsewhere (adminId oid' : string) (body : ResolveBody) :
  oid' ≠ oid → offers (route (resolveDispute adminId oid' body) s).1 !! oid = Some o.
Proof. intros Hne. run_handler. split_handler oid. Qed.

(** An update of an offer that has left DRAFT writes nothing. *)
Lemma updateOffer_refused (ids : nat → string) (vendor : string) (body : UpdateBody) :
  status o ≠ DRAFT → (route (updateOffer ids vendor oid body) s).1 = s.
Proof.
  intros Hst. run_handler. rewrite Hfound.
  destruct (bool_decide (initiatorVendorId o ≠ vendor)); [done |].
  by rewrite (bool_decide_eq_true_2 (status o ≠ DRAFT)).
Qed.


End Elsewhere.








(** ** Validation of the items *)

Section Validation.
Context (s : Store) (pm : gmap string Product) (initiator recipient : string).

Lemma validateItems_code (l : list ItemInput) (r : Reply) :
  validateItems pm initiator recipient l = Some r → ∃ msg, r = Fail 400 msg.
Proof.
  induction l as [| i l IH]; cbn [validateItems]; [done |].
  repeat case_match; try (intros [= <-]; by eauto). exact IH.
Qed.

Lemma validateItems_passed (l : list ItemInput) :
  (∀ i, i ∈ l → pm !! in_productId i = products s !! in_productId i) →
  validateItems pm initiator recipient l = None →
  Forall (itemAdmissible s initiator recipient) l.
Proof.
  induction l as [| i l IH]; intros Hpm; cbn [validateItems]; [constructor |].
  destruct (pm !! in_productId i) as [p |] eqn:Hp; [| done].
  destruct (isDeleted p) eqn:Hdel; [done |].
  destruct (isAvailable p) eqn:Hav; [| done].
  cbn [orb negb].
  destruct (in_isOffered i) eqn:Hoff; cbn [andb negb];
    case_bool_decide as Hown; try done; intros Hrest;
    (constructor; [| apply IH; [intros j Hj; apply Hpm; by right | done]]);
    exists p; rewrite <- Hpm, Hoff by left; repeat split; try done;
    by destruct (decide (vendorId p = _)).
Qed.

Lemma validateItems_unusable (l : list ItemInput) :
  (∀ i, i ∈ l → pm !! in_productId i = products s !! in_productId i) →
  Exists (productUnusable s) l →
  is_Some (validateItems pm initiator recipient l).
Proof.
  intros Hpm Hbad. destruct (validateItems pm initiator recipient l) eqn:Hv; [by eauto |].
  apply validateItems_passed in Hv; [| done].
  apply Exists_exists in Hbad as (i & Hi & Hbad).
  rewrite Forall_forall in Hv. destruct (Hv i Hi) as (p & Hp & Hdel & Hav & _).
  unfold productUnusable in Hbad. rewrite Hp in Hbad.
  destruct Hbad as [Hbad | Hbad]; congruence.
Qed.

End Validation.

(** X1. A creation that names a missing, soft-deleted or unavailable
    product is refused with a validation error (400) and writes nothing. *)
Lemma create_refuses_unusable (s : Store) (newId : string) (ids : nat → string)
    (initiator : string) (body : CreateBody) :
  Exists (productUnusable s) (cb_items body) →
  ∃ msg, route (createOffer newId ids initiator body) s = (s, Fail 400 msg).
Proof.
  intros Hbad. unfold route, createOffer.
  destruct (negb (createOfferSchema body)); [by eauto |].
  case_bool_decide; [by eauto |].
  unfold findVendor, findProducts, mbind, Db_bind, mret, Db_ret.
  destruct (vendors s !! cb_recipientVendorId body) as [v |]; [| by eauto].
  destruct (_ || _); [by eauto |].
  destruct (validateItems_unusable s _ initiator (cb_recipientVendorId body) (cb_items body)
              (λ i, productMap_agrees s (cb_items body) i) Hbad) as [r Hr].
  rewrite Hr. destruct (validateItems_code _ _ _ _ _ Hr) as [msg ->]. by eauto.
Qed.

(** A creation writes only after every item has passed the validation, and
    then each row carries the price its product has in the store. *)
Lemma create_checked (s : Store) (newId : string) (ids : nat → string)
    (initiator : string) (body : CreateBody) (s' : Store) (r : Reply) :
  route (createOffer newId ids initiator body) s = (s', r) →
  (s' = s ∧ ∃ code msg, r = Fail code msg)
  ∨ ∃ (o : BarterOffer) (rows : list BarterItem),
      r = Done 201 "Offer created as draft" o
      ∧ offers s' = <[newId := o]> (offers s)
      ∧ items s' = items s ++ rows
      ∧ Forall (itemAdmissible s initiator (cb_recipientVendorId body)) (cb_items body)
      ∧ Forall2 (snapshotOf s newId) (cb_items body) rows
      ∧ (status o = DRAFT
         ∧ initiatorVendorId o = initiator
         ∧ recipientVendorId o = cb_recipientVendorId body
         ∧ initiator ≠ cb_recipientVendorId body)
      ∧ cashGapCents o = default 0 (cb_cashGapCents body)
      ∧ cashGapDirection o
        = gapDirection (default 0 (cb_cashGapCents body)) (cb_cashGapDirection body).
Proof.
  unfold route, createOffer.
  destruct (negb (createOfferSchema body)); [intros [= <- <-]; left; by eauto |].
  case_bool_decide; [intros [= <- <-]; left; by eauto |].
  unfold findVendor, findProducts, mbind, Db_bind, mret, Db_ret, throw.
  destruct (vendors s !! cb_recipientVendorId body) as [v |];
    [| intros [= <- <-]; left; by eauto].
  destruct (_ || _); [intros [= <- <-]; left; by eauto |].
  destruct (validateItems _ initiator _ (cb_items body)) as [reply |] eqn:Hval.
  { destruct (validateItems_code _ _ _ _ _ Hval) as [msg ->].
    intros [= <- <-]; left; by eauto. }
  apply (validateItems_passed s) in Hval; [| by apply productMap_agrees].
  destruct (buildItems _ newId ids 0 (cb_items body)) as [rows |] eqn:Hrows;
    [| intros [= <- <-]; left; by eauto].
  apply (buildItems_snapshot s) in Hrows; [| by apply productMap_agrees].
  unfold create. destruct (offers s !! newId); [intros [= <- <-]; left; by eauto |].
  destruct (_ && _); intros [= <- <-]; [right | left; by eauto].
  eexists _, rows. by repeat split.
Qed.

(** ** Where update and counter leave the validation out *)

(** C3. The code departs from the specification: POST /offers runs the
    ownership check, PATCH /offers/:id and POST /offers/:id/counter do not.
    Vendor B
    counters offer "o1" offering yam, a product of vendor A, and the row is
    written; vendor A updates its draft offering rice, a product of vendor
    B, and the row replaces the draft's items; the same item list in a
    creation is refused. *)
Theorem ownership_skipped :
  let sent := demoStore SENT false false in
  let draft := demoStore DRAFT false false in
  let answered := route (counterOffer "o2" demoIds "vendorB" "o1" foreignCounterBody) sent in
  let updated := route (updateOffer demoIds "vendorA" "o1" foreignUpdateBody) draft in
  let created := route (createOffer "o2" demoIds "vendorB" foreignCreateBody) sent in
  (vendorId <$> products sent !! "pA" = Some "vendorA"
   ∧ vendorId <$> products sent !! "pB" = Some "vendorB")
  ∧ (answered.2 = Done 201 "Counter-offer sent"
                    (counterOf "vendorB" "o1" (demoOffer SENT false false) foreignCounterBody)
     ∧ items answered.1
       = demoRows ++ [ {| itemId := "n0"; offerId := "o2"; productId := "pA";
                          quantity := 1; valueCents := 1000; isOffered := true |} ])
  ∧ (updated.2 = Done 200 "Offer updated" (demoOffer DRAFT false false)
     ∧ items updated.1
       = [ {| itemId := "n0"; offerId := "o1"; productId := "pB";
              quantity := 1; valueCents := 1500; isOffered := true |} ])
  ∧ created = (sent, Fail 400 "You can only offer your own products").
Proof. vm_compute. repeat split. Qed.

(** C4. The code departs from the specification on the counter path: POST
    /offers refuses a soft-deleted product and an unknown product with a
    validation error (400), POST /offers/:id/counter reads neither isDeleted
    nor isAvailable. Vendor B counters offer "o1" offering its soft-deleted
    millet: the counter is sent and the row snapshots the price 700. With an
    unknown product the counter writes nothing but ends in the reply 500,
    not in a validation error. *)
Theorem counter_takes_deleted_product :
  let sent := demoStore SENT false false in
  let answered := route (counterOffer "o2" demoIds "vendorB" "o1" deletedCounterBody) sent in
  isDeleted <$> products sent !! "pGone" = Some true
  ∧ products sent !! "pNone" = None
  ∧ (answered.2 = Done 201 "Counter-offer sent"
                    (counterOf "vendorB" "o1" (demoOffer SENT false false) deletedCounterBody)
     ∧ status <$> offers answered.1 !! "o1" = Some COUNTERED
     ∧ items answered.1
       = demoRows ++ [ {| itemId := "n0"; offerId := "o2"; productId := "pGone";
                          quantity := 1; valueCents := 700; isOffered := true |} ])
  ∧ route (counterOffer "o2" demoIds "vendorB" "o1" unknownCounterBody) sent
    = (sent, Fail 500 "Internal server error")
  ∧ route (createOffer "o2" demoIds "vendorB" deletedCreateBody) sent
    = (sent, Fail 400 "Product pGone is not available")
  ∧ route (createOffer "o2" demoIds "vendorB" unknownCreateBody) sent
    = (sent, Fail 400 "Product pNone not found").
Proof. vm_compute. repeat split. Qed.

(** ** Cash gap and direction *)





(** ** The catalog is read-only *)

Lemma update_catalog (s s' : Store) (oid : string) (data : list Assign)
    (r : option BarterOffer) :
  update oid data s = (s', r) → products s' = products s ∧ vendors s' = vendors s.
Proof.
  intros Hu. by apply update_shape in Hu as [[-> _] | (o & _ & -> & _)].
Qed.

(** X25. No operation of the engine writes a product or a vendor. *)
Lemma catalog_read_only (op : Op) (s : Store) :
  products (run op s).1 = products s ∧ vendors (run op s).1 = vendors s.
Proof.
  destruct op as [newId ids vendor body | ids vendor oid body | a vendor oid
                 | vendor oid | adminId oid body | oid body]; cbn [run];
    [| | destruct a | | |]; run_handler;
    unfold createOffer, findVendor, findProducts, create, transaction, deleteMany, createMany,
      throw, route, mbind, Db_bind, mret, Db_ret;
    cbn beta;
    repeat case_match; simplify_eq/=; try done;
    repeat match goal with
           | H : update _ _ _ = _ |- _ => apply update_catalog in H as [? ?]
           end; cbn in *; try done; split; congruence.
Qed.

(** * Further properties of the routes *)

(** ** Creation *)

Lemma create_refuses_unusable_witness :
  Exists (productUnusable (demoStore SENT false false)) (cb_items deletedCreateBody)
  ∧ ∃ msg, route (createOffer "o2" demoIds "vendorB" deletedCreateBody)
             (demoStore SENT false false)
           = (demoStore SENT false false, Fail 400 msg).
Proof.
  assert (Exists (productUnusable (demoStore SENT false false)) (cb_items deletedCreateBody))
    as Hbad by (apply Exists_cons_hd; by left).
  split; [exact Hbad |].
  exact (create_refuses_unusable _ "o2" demoIds "vendorB" deletedCreateBody Hbad).
Defined.



Lemma buildItems_rows (pm : gmap string Product) (oid : string) (ids : nat → string)
    (l : list ItemInput) (k : nat) (rows : list BarterItem) :
  buildItems pm oid ids k l = Some rows →
  Forall (λ r, offerId r = oid) rows ∧ length rows = length l.
Proof.
  revert k rows. induction l as [| i l IH]; intros k rows; cbn [buildItems].
  - intros [= <-]. by split.
  - destruct (pm !! in_productId i); [| done].
    destruct (buildItems pm oid ids (S k) l) as [rest |] eqn:Hrest; [| done].
    intros [= <-]. destruct (IH _ _ Hrest) as [Hall Hlen].
    split; [by constructor | cbn; by rewrite Hlen].
Qed.

Lemma schema_items_nonempty (l : list ItemInput) : itemsSchema l = true → l ≠ [].
Proof. unfold itemsSchema. intros [H _]%andb_true_iff. by apply bool_decide_eq_true in H. Qed.

(** The store a creation leaves. *)
Lemma create_shape (s : Store) (newId : string) (ids : nat → string) (vendor : string)
    (body : CreateBody) :
  let s' := (route (createOffer newId ids vendor body) s).1 in
  s' = s
  ∨ ∃ o rows, offers s !! newId = None
              ∧ Forall (λ r, offerId r = newId) rows
              ∧ rows ≠ []
              ∧ s' = {| vendors := vendors s; products := products s;
                        offers := <[newId := o]> (offers s); items := items s ++ rows |}.
Proof.
  cbn zeta.
  unfold route, createOffer, findVendor, findProducts, create, throw, mbind, Db_bind,
    mret, Db_ret.
  cbn beta. repeat case_match; simplify_eq/=; try (by left).
  right.
  match goal with H : buildItems _ _ _ _ _ = Some _ |- _ =>
    apply buildItems_rows in H as [Hall Hlen] end.
  eexists _, _. repeat split; try done.
  intros ->.
  match goal with H : negb (createOfferSchema body) = false |- _ =>
    apply negb_false_iff in H; unfold createOfferSchema in H;
    apply andb_true_iff in H as [[_ H]%andb_true_iff _];
    apply schema_items_nonempty in H end.
  by destruct (cb_items body).
Qed.

(** X2. A creation is all or nothing: it either replies with an error and
    leaves the store as it was, or it inserts under a fresh identifier one
    DRAFT offer between two distinct vendors with both flags unset and no
    parent, after every item has passed the validation, with one row per
    item carrying the product's price at that moment. *)
Theorem creation_all_or_nothing (s : Store) (newId : string) (ids : nat → string)
    (initiator : string) (body : CreateBody) (s' : Store) (r : Reply) :
  route (createOffer newId ids initiator body) s = (s', r) →
  (s' = s ∧ ∃ code msg, r = Fail code msg)
  ∨ ∃ (o : BarterOffer) (rows : list BarterItem),
      r = Done 201 "Offer created as draft" o
      ∧ offers s !! newId = None
      ∧ s' = {| vendors := vendors s; products := products s;
                offers := <[newId := o]> (offers s); items := items s ++ rows |}
      ∧ Forall (itemAdmissible s initiator (cb_recipientVendorId body)) (cb_items body)
      ∧ Forall2 (snapshotOf s newId) (cb_items body) rows
      ∧ status o = DRAFT
      ∧ initiatorVendorId o = initiator
      ∧ recipientVendorId o = cb_recipientVendorId body
      ∧ initiator ≠ cb_recipientVendorId body.
Proof.
  intros Hrun.
  destruct (create_checked _ _ _ _ _ _ _ Hrun)
    as [? | (o & rows & -> & Hoffers & Hitems & Hadm & Hsnap & (? & ? & ? & ?) & _)];
    [by left |].
  right. exists o, rows.
  pose proof (create_shape s newId ids initiator body) as Hshape.
  cbn zeta in Hshape. rewrite Hrun in Hshape. cbn [fst] in Hshape.
  destruct Hshape as [-> | (o1 & rows1 & Hfresh & _ & _ & ->)].
  - apply (f_equal length) in Hitems. rewrite length_app in Hitems.
    apply Forall2_length in Hsnap.
    assert (cb_items body ≠ []) as Hne.
    { intros Hnil. rewrite Hnil in Hsnap. destruct rows; [| done].
      assert (offers s !! newId = Some o) as Hin by (rewrite Hoffers; apply lookup_insert_eq).
      unfold route, createOffer in Hrun. rewrite Hnil in Hrun.
      unfold createOfferSchema, itemsSchema in Hrun. rewrite Hnil in Hrun.
      rewrite andb_false_r in Hrun. cbn in Hrun. done. }
    destruct (cb_items body); [done |]. destruct rows; cbn in *; [done | lia].
  - cbn [offers items] in Hoffers, Hitems.
    apply app_inv_head in Hitems as ->.
    assert (o1 = o) as ->.
    { apply (f_equal (λ m, m !! newId)) in Hoffers.
      rewrite !lookup_insert_eq in Hoffers. congruence. }
    by repeat split.
Qed.

Lemma creation_all_or_nothing_witness :
  let s := demoStore DRAFT false false in
  let after := route (createOffer "o2" demoIds "vendorA" directedGapBody) s in
  ∃ (o : BarterOffer) (rows : list BarterItem),
    after.2 = Done 201 "Offer created as draft" o
    ∧ offers s !! "o2" = None
    ∧ after.1 = {| vendors := vendors s; products := products s;
                   offers := <["o2" := o]> (offers s); items := items s ++ rows |}
    ∧ Forall (itemAdmissible s "vendorA" "vendorB") (cb_items directedGapBody)
    ∧ Forall2 (snapshotOf s "o2") (cb_items directedGapBody) rows
    ∧ status o = DRAFT
    ∧ initiatorVendorId o = "vendorA"
    ∧ recipientVendorId o = "vendorB"
    ∧ "vendorA" ≠ "vendorB".
Proof.
  intros s after.
  destruct (creation_all_or_nothing s "o2" demoIds "vendorA" directedGapBody after.1 after.2
              (surjective_pairing after))
    as [[_ (code & msg & Hfail)] | Hdone]; [| exact Hdone].
  vm_compute in Hfail. discriminate Hfail.
Defined.




(** X4. A creation towards oneself, or towards a vendor that is unknown, not
    approved or not active, is refused with the reply 400 and writes
    nothing. *)
Theorem creation_refuses_recipient (s : Store) (newId : string) (ids : nat → string)
    (initiator : string) (body : CreateBody) :
  cb_recipientVendorId body = initiator
  ∨ match vendors s !! cb_recipientVendorId body with
    | None => True
    | Some v => vendorStatus v ≠ APPROVED ∨ isActive v = false
    end →
  ∃ msg, route (createOffer newId ids initiator body) s = (s, Fail 400 msg).
Proof.
  intros Hbad. unfold route, createOffer.
  destruct (negb (createOfferSchema body)); [by eauto |].
  case_bool_decide as Hself; [by eauto |].
  destruct Hbad as [? | Hbad]; [done |].
  unfold findVendor, mbind, Db_bind, mret, Db_ret.
  destruct (vendors s !! cb_recipientVendorId body) as [v |]; [| by eauto].
  destruct Hbad as [Hst | Hact].
  - rewrite (bool_decide_eq_true_2 _ Hst). by eauto.
  - rewrite Hact, orb_true_r. by eauto.
Qed.

Lemma creation_refuses_recipient_witness :
  cb_recipientVendorId directedGapBody = "vendorB"
  ∧ ∃ msg, route (createOffer "o2" demoIds "vendorB" directedGapBody)
             (demoStore DRAFT false false)
           = (demoStore DRAFT false false, Fail 400 msg).
Proof.
  split; [reflexivity |].
  exact (creation_refuses_recipient (demoStore DRAFT false false) "o2" demoIds "vendorB"
           directedGapBody (or_introl eq_refl)).
Defined.

(** ** Plain transitions *)

(** X5. The initiator's send of a draft moves it to SENT and changes nothing
    else, unless the offer has no item row, in which case the reply is 400
    and nothing is written. *)
Theorem send_draft (s : Store) (oid : string) (o : BarterOffer) :
  offers s !! oid = Some o →
  status o = DRAFT →
  route (sendOffer (initiatorVendorId o) oid) s
  = if bool_decide (rowsOf s oid = [])
    then (s, Fail 400 "Cannot send an empty offer")
    else (withOffers s (<[oid := withStatus o SENT]> (offers s)),
          Done 200 "Offer sent successfully" (withStatus o SENT)).
Proof.
  intros Ho Hst. run_handler. rewrite Ho. cbn [mbind option_bind].
  rewrite (bool_decide_eq_false_2 (_ ≠ _)) by (intros H; by apply H).
  rewrite (bool_decide_eq_false_2 (status o ≠ DRAFT)) by (intros H; by apply H).
  unfold rowsOf. destruct (filter _ (items s)) as [| r rows]; cbn [length].
  - by rewrite !bool_decide_eq_true_2.
  - rewrite !bool_decide_eq_false_2 by done.
    by erewrite update_found by (done || reflexivity).
Qed.

Lemma send_draft_witness :
  let s := demoStore DRAFT false false in
  offers s !! "o1" = Some (demoOffer DRAFT false false)
  ∧ route (sendOffer "vendorA" "o1") s
    = (withOffers s (<["o1" := demoOffer SENT false false]> (offers s)),
       Done 200 "Offer sent successfully" (demoOffer SENT false false))
  ∧ route (sendOffer "vendorA" "o1") (withItems s [])
    = (withItems s [], Fail 400 "Cannot send an empty offer").
Proof.
  intros s. split; [reflexivity |]. split.
  - exact (send_draft s "o1" (demoOffer DRAFT false false) eq_refl eq_refl).
  - exact (send_draft (withItems s []) "o1" (demoOffer DRAFT false false) eq_refl eq_refl).
Defined.

(** X6. An accept or a reject by the recipient, and a cancel by the
    initiator, from a state in which the handler permits it, replies 200 and
    rewrites the state of the offer to ACCEPTED, REJECTED or CANCELLED;
    every other field, row and offer stays. *)
Theorem plain_transition (a : PartyAction) (st : BarterStatus) (s : Store) (oid : string)
    (o : BarterOffer) :
  offers s !! oid = Some o →
  landing a = Some st →
  tablePermits a (status o) = true →
  ∃ msg, perform a (actor a o) oid s
         = (withOffers s (<[oid := withStatus o st]> (offers s)), Done 200 msg (withStatus o st)).
Proof.
  intros Ho Hland Hok.
  destruct a; try discriminate Hland; injection Hland as <-; cbn [actor];
    run_handler; rewrite Ho;
    rewrite (bool_decide_eq_false_2 (_ ≠ _)) by (intros H; by apply H);
    match goal with
    | |- context [bool_decide (status o ∈ ?l)] =>
        assert (bool_decide (status o ∈ l) = true) as ->
          by (destruct (status o); try discriminate Hok; reflexivity)
    end;
    cbn [negb]; (erewrite update_found by (done || reflexivity)); by eauto.
Qed.

Lemma plain_transition_witness :
  let s := demoStore SENT false false in
  offers s !! "o1" = Some (demoOffer SENT false false)
  ∧ (∃ msg, perform Reject "vendorB" "o1" s
            = (withOffers s (<["o1" := demoOffer REJECTED false false]> (offers s)),
               Done 200 msg (demoOffer REJECTED false false)))
  ∧ (∃ msg, perform Cancel "vendorA" "o1" s
            = (withOffers s (<["o1" := demoOffer CANCELLED false false]> (offers s)),
               Done 200 msg (demoOffer CANCELLED false false))).
Proof.
  intros s. split; [reflexivity |]. split.
  - exact (plain_transition Reject REJECTED s "o1" (demoOffer SENT false false)
             eq_refl eq_refl eq_refl).
  - exact (plain_transition Cancel CANCELLED s "o1" (demoOffer SENT false false)
             eq_refl eq_refl eq_refl).
Defined.



(** ** Strangers and unknown identifiers *)

(** X8. A vendor that is neither the initiator nor the recipient of an offer
    gets the reply 403 from every party action (a dispute with an empty
    reason apart, which is refused as invalid first), from update and from
    the detail view, and nothing is written. *)
Theorem stranger_refused (s : Store) (vendor oid : string) (o : BarterOffer) :
  offers s !! oid = Some o →
  vendor ≠ initiatorVendorId o →
  vendor ≠ recipientVendorId o →
  (∀ a, (∀ b, a = Dispute b → db_reason b ≠ "") →
        ∃ msg, perform a vendor oid s = (s, Fail 403 msg))
  ∧ (∀ ids body, ∃ msg, route (updateOffer ids vendor oid body) s = (s, Fail 403 msg))
  ∧ route (getOffer vendor oid) s = (s, Fail 403 "You are not part of this offer").
Proof.
  intros Ho Hi Hr.
  assert (bool_decide (initiatorVendorId o ≠ vendor) = true) as Hbi
    by (apply bool_decide_eq_true_2; congruence).
  assert (bool_decide (recipientVendorId o ≠ vendor) = true) as Hbr
    by (apply bool_decide_eq_true_2; congruence).
  assert (bool_decide (initiatorVendorId o = vendor) = false) as Hei
    by (apply bool_decide_eq_false_2; congruence).
  assert (bool_decide (recipientVendorId o = vendor) = false) as Her
    by (apply bool_decide_eq_false_2; congruence).
  split; [| split].
  - intros a Hbody.
    destruct a as [| | | newId ids body | | | body]; run_handler;
      try (assert (disputeSchema body = true) as ->
             by (apply bool_decide_eq_true_2; by apply Hbody);
           cbn [negb]);
      rewrite ?Ho; cbn [mbind option_bind]; rewrite ?Hbi, ?Hbr, ?Hei, ?Her; cbn [negb andb];
      by eauto.
  - intros ids body. run_handler. rewrite Ho, Hbi. by eauto.
  - run_handler. rewrite Ho. cbn [mbind option_bind mret option_ret offer].
    by rewrite Hbi, Hbr.
Qed.

Lemma stranger_refused_witness :
  let s := demoStore ACCEPTED false false in
  offers s !! "o1" = Some (demoOffer ACCEPTED false false)
  ∧ (∃ msg, perform Fulfill "vendorC" "o1" s = (s, Fail 403 msg))
  ∧ (∃ msg, perform Accept "vendorC" "o1" s = (s, Fail 403 msg))
  ∧ route (getOffer "vendorC" "o1") s = (s, Fail 403 "You are not part of this offer").
Proof.
  intros s. split; [reflexivity |].
  assert ("vendorC" ≠ initiatorVendorId (demoOffer ACCEPTED false false)) as Hi
    by (cbn; congruence).
  assert ("vendorC" ≠ recipientVendorId (demoOffer ACCEPTED false false)) as Hr
    by (cbn; congruence).
  pose proof (stranger_refused s "vendorC" "o1" _ eq_refl Hi Hr) as (Hact & _ & Hget).
  split; [apply Hact; by intros b [=] |].
  split; [apply Hact; by intros b [=] | exact Hget].
Defined.

(** X9. An identifier that names no offer gets the reply 404 from every
    party action, from update, from the detail view and from both writing
    admin routes (each with a body that passes its schema), and nothing is
    written. *)
Theorem unknown_offer (s : Store) (oid : string) :
  offers s !! oid = None →
  (∀ a vendor, (∀ b, a = Dispute b → db_reason b ≠ "") →
               perform a vendor oid s = (s, Fail 404 "Offer not found"))
  ∧ (∀ ids vendor body,
       route (updateOffer ids vendor oid body) s = (s, Fail 404 "Offer not found"))
  ∧ (∀ vendor, route (getOffer vendor oid) s = (s, Fail 404 "Offer not found"))
  ∧ (∀ adminId body, resolveDisputeSchema body = true →
       route (resolveDispute adminId oid body) s = (s, Fail 404 "Offer not found"))
  ∧ (∀ body, route (forceStatus oid body) s = (s, Fail 404 "Offer not found")).
Proof.
  intros Ho. repeat split.
  - intros a vendor Hbody.
    destruct a as [| | | newId ids body | | | body]; run_handler;
      try (assert (disputeSchema body = true) as ->
             by (apply bool_decide_eq_true_2; by apply Hbody);
           cbn [negb]);
      by rewrite Ho.
  - intros ids vendor body. run_handler. by rewrite Ho.
  - intros vendor. run_handler. by rewrite Ho.
  - intros adminId body Hbody. run_handler. rewrite Hbody. cbn [negb]. by rewrite Ho.
  - intros [st]. run_handler.
    assert (updateStatusSchema {| sb_status := st |} = true) as -> by (by destruct st).
    cbn [negb]. by rewrite Ho.
Qed.

Lemma unknown_offer_witness :
  let s := demoStore SENT false false in
  offers s !! "o9" = None
  ∧ perform Accept "vendorB" "o9" s = (s, Fail 404 "Offer not found")
  ∧ route (resolveDispute "admin1" "o9"
             {| rb_resolution := "refund"; rb_newStatus := CANCELLED |}) s
    = (s, Fail 404 "Offer not found").
Proof.
  intros s. split; [reflexivity |].
  pose proof (unknown_offer s "o9" eq_refl) as (Hact & _ & _ & Hres & _).
  split; [apply Hact; by intros b [=] | by apply Hres].
Defined.

(** ** What every operation keeps *)

Lemma keeps_refl (o : BarterOffer) : keeps o o.
Proof. by repeat split. Qed.

Lemma keeps_withStatus (o : BarterOffer) (st : BarterStatus) : keeps o (withStatus o st).
Proof. by repeat split. Qed.

Lemma update_step (s s' : Store) (oid : string) (data : list Assign) (r : option BarterOffer)
    (m : gmap string BarterOffer) :
  update oid data s = (s', r) →
  offers s = m →
  (∀ o, keeps o (assignAll o data)) →
  offersStep m (offers s').
Proof.
  intros Hu <- Hkeeps. apply update_shape in Hu as [[-> _] | (o & Ho & -> & _)].
  - by apply StepNone.
  - by eapply StepRewrite.
Qed.

Lemma optFields_keep (o : BarterOffer) (c : option Z) (d : option (option CashGapDirection))
    (m : option string) :
  keeps o (assignAll o (optField SetCashGapCents c ++ optField SetCashGapDirection d
                        ++ optField SetMessage m)).
Proof. destruct c, d, m; by repeat split. Qed.

Ltac step_handler :=
  repeat case_match; simplify_eq/=;
  try (by apply StepNone);
  try (match goal with
       | H : update _ _ _ = _ |- _ =>
           eapply update_step in H; [exact H | reflexivity |]
       end; intros ?; first [ apply optFields_keep | by repeat split ]).

Lemma create_step (s : Store) (newId : string) (ids : nat → string) (vendor : string)
    (body : CreateBody) :
  offersStep (offers s) (offers (route (createOffer newId ids vendor body) s).1).
Proof.
  unfold route, createOffer, findVendor, findProducts, create, throw, mbind, Db_bind,
    mret, Db_ret.
  cbn beta. repeat case_match; simplify_eq/=; try (by apply StepNone).
  eapply StepCreate.
  4: reflexivity.
  - eassumption.
  - reflexivity.
  - cbn. match goal with
         | H : bool_decide (_ = _) = false |- _ => apply bool_decide_eq_false in H
         end.
    congruence.
Qed.

Lemma party_step (a : PartyAction) (vendor oid : string) (s : Store) :
  offersStep (offers s) (offers (perform a vendor oid s).1).
Proof.
  destruct a as [| | | newId ids body | | | body].
  4: { unfold perform.
       destruct (route (counterOffer newId ids vendor oid body) s) as [s' r] eqn:Hrun.
       apply counter_atomic in Hrun as [[-> _] | (o1 & rows & Ho & Hnew & -> & _ & -> & _)];
         [by apply StepNone |].
       eapply (StepCounter _ _ oid newId o1); [done | done | | | reflexivity]; reflexivity. }
  all: run_handler; step_handler.
Qed.

(** Each operation is one step on the offers table. *)
Lemma run_step (op : Op) (s : Store) : offersStep (offers s) (offers (run op s).1).
Proof.
  destruct op as [newId ids vendor body | ids vendor oid body | a vendor oid
                 | vendor oid | adminId oid body | oid body]; cbn [run].
  - apply create_step.
  - run_handler.
    unfold findProducts, transaction, deleteMany, createMany, throw, mbind, Db_bind, mret, Db_ret.
    cbn beta. step_handler.
  - apply party_step.
  - rewrite getOffer_reads. by apply StepNone.
  - run_handler. step_handler.
  - run_handler. step_handler.
Qed.

Lemma step_kept (m m' : gmap string BarterOffer) (oid : string) (o : BarterOffer) :
  offersStep m m' → m !! oid = Some o → ∃ o', m' !! oid = Some o' ∧ keeps o o'.
Proof.
  intros [-> | oid' o1 o1' Ho1 Hk -> | newId o1 Hnew _ _ ->
         | oid' newId o1 child Ho1 Hnew _ _ ->] Ho.
  - exists o. split; [done | apply keeps_refl].
  - destruct (decide (oid' = oid)) as [-> | Hne].
    + rewrite lookup_insert_eq. simplify_eq. by eauto.
    + rewrite lookup_insert_ne by done. exists o. split; [done | apply keeps_refl].
  - rewrite lookup_insert_ne by congruence. exists o. split; [done | apply keeps_refl].
  - rewrite lookup_insert_ne by congruence.
    destruct (decide (oid' = oid)) as [-> | Hne].
    + rewrite lookup_insert_eq. simplify_eq. eexists. split; [done | apply keeps_withStatus].
    + rewrite lookup_insert_ne by done. exists o. split; [done | apply keeps_refl].
Qed.

Lemma step_distinct (m m' : gmap string BarterOffer) :
  offersStep m m' → partiesDistinct m → partiesDistinct m'.
Proof.
  intros [-> | oid' o1 o1' Ho1 Hk -> | newId o1 Hnew _ Hd ->
         | oid' newId o1 child Ho1 Hnew Hi Hr ->]
    Hm oid o; [by apply Hm | | |].
  - destruct (decide (oid' = oid)) as [-> | Hne].
    + rewrite lookup_insert_eq. intros [= <-].
      destruct Hk as (-> & -> & _). by eapply Hm.
    + rewrite lookup_insert_ne by done. by apply Hm.
  - destruct (decide (newId = oid)) as [-> | Hne].
    + rewrite lookup_insert_eq. by intros [= <-].
    + rewrite lookup_insert_ne by done. by apply Hm.
  - destruct (decide (newId = oid)) as [-> | Hne].
    + rewrite lookup_insert_eq. intros [= <-]. rewrite Hi, Hr.
      intros Heq. by eapply Hm.
    + rewrite lookup_insert_ne by done.
      destruct (decide (oid' = oid)) as [-> | Hne'].
      * rewrite lookup_insert_eq. intros [= <-]. cbn. by eapply Hm.
      * rewrite lookup_insert_ne by done. by apply Hm.
Qed.

(** X10. No operation of the engine, the admin override included, removes an
    offer, changes its initiator, its recipient, its parent or its
    counterOfMessage, or resets a fulfilled flag that is set. *)
Theorem offers_outlive (op : Op) (s : Store) (oid : string) (o : BarterOffer) :
  offers s !! oid = Some o →
  ∃ o', offers (run op s).1 !! oid = Some o' ∧ keeps o o'.
Proof. intros Ho. eapply step_kept; [apply run_step | done]. Qed.

Lemma offers_outlive_witness :
  let s := demoStore IN_PROGRESS true false in
  offers s !! "o1" = Some (demoOffer IN_PROGRESS true false)
  ∧ ∃ o', offers (run (OpForceStatus "o1" {| sb_status := DRAFT |}) s).1 !! "o1" = Some o'
          ∧ keeps (demoOffer IN_PROGRESS true false) o'.
Proof.
  intros s. split; [reflexivity |].
  exact (offers_outlive (OpForceStatus "o1" {| sb_status := DRAFT |}) s "o1" _ eq_refl).
Defined.

(** X11. If every offer of the store has two distinct parties, so has every
    offer of the store after any operation. *)
Theorem parties_stay_distinct (op : Op) (s : Store) :
  partiesDistinct (offers s) → partiesDistinct (offers (run op s).1).
Proof. apply step_distinct, run_step. Qed.

Lemma demo_parties_distinct (st : BarterStatus) (fi fr : bool) :
  partiesDistinct (offers (demoStore st fi fr)).
Proof.
  intros oid o. cbn [offers demoStore].
  intros [[_ <-] | [_ H]]%lookup_insert_Some; [cbn; congruence |].
  by rewrite lookup_empty in H.
Qed.

Lemma parties_stay_distinct_witness :
  let s := demoStore SENT false false in
  partiesDistinct (offers s)
  ∧ partiesDistinct
      (offers (run (OpParty (Counter "o2" demoIds demoCounterBody) "vendorB" "o1") s).1).
Proof.
  intros s. split; [apply demo_parties_distinct |].
  exact (parties_stay_distinct _ s (demo_parties_distinct SENT false false)).
Defined.

(** ** Disputes and the admin routes *)

(** X12. While an offer is DISPUTED, creation, update, reading and every
    party action, whoever attempts it, leave the offer exactly as it is; so
    does a resolution addressed to another offer. *)
Theorem disputed_waits_for_admin (op : Op) (s : Store) (oid : string) (o : BarterOffer) :
  offers s !! oid = Some o →
  status o = DISPUTED →
  (∀ adminId body, op ≠ OpResolve adminId oid body) →
  isForce op = false →
  offers (run op s).1 !! oid = Some o.
Proof.
  intros Ho Hst Hres Hop.
  assert (∀ a, tablePermits a (status o) = false) as Hno by (rewrite Hst; by intros []).
  destruct op as [newId ids vendor body | ids vendor oid' body | a vendor oid'
                 | vendor oid' | adminId oid' body | oid' body]; cbn [run]; [| | | | | done].
  - by apply create_elsewhere.
  - destruct (decide (oid' = oid)) as [-> | Hne].
    + rewrite (updateOffer_refused s oid o Ho); [done | by rewrite Hst].
    + by apply updateOffer_elsewhere.
  - destruct (decide (oid' = oid)) as [-> | Hne].
    + destruct (refused_once a vendor oid s o Ho (Hno a)) as (code & msg & -> & _). done.
    + by apply party_elsewhere.
  - by rewrite getOffer_reads.
  - destruct (decide (oid' = oid)) as [-> | Hne]; [by destruct (Hres adminId body) |].
    by apply admin_elsewhere.
Qed.

Lemma disputed_waits_for_admin_witness :
  let s := demoStore DISPUTED true false in
  offers s !! "o1" = Some (demoOffer DISPUTED true false)
  ∧ offers (run (OpParty Fulfill "vendorB" "o1") s).1 !! "o1"
    = Some (demoOffer DISPUTED true false).
Proof.
  intros s. split; [reflexivity |].
  by refine (disputed_waits_for_admin (OpParty Fulfill "vendorB" "o1") s "o1" _
               eq_refl eq_refl _ eq_refl).
Defined.


Lemma force_run (s : Store) (oid : string) (o : BarterOffer) (st : BarterStatus) :
  offers s !! oid = Some o →
  route (forceStatus oid {| sb_status := st |}) s
  = (withOffers s (<[oid := withStatus o st]> (offers s)),
     Done 200 ("Offer status updated to " +:+ statusWord st) (withStatus o st)).
Proof.
  intros Ho. run_handler.
  assert (updateStatusSchema {| sb_status := st |} = true) as -> by (by destruct st).
  cbn [negb sb_status]. rewrite Ho.
  by erewrite update_found by (done || reflexivity).
Qed.

(** X14. The admin override rewrites the state of any existing offer to any
    of the nine states, from whatever state, and touches nothing else; of
    two overrides in a row only the second shows. *)
Theorem force_overrides (s : Store) (oid : string) (o : BarterOffer) (st1 st2 : BarterStatus) :
  offers s !! oid = Some o →
  let once := route (forceStatus oid {| sb_status := st2 |}) s in
  let twice := route (forceStatus oid {| sb_status := st2 |})
                 (route (forceStatus oid {| sb_status := st1 |}) s).1 in
  once = (withOffers s (<[oid := withStatus o st2]> (offers s)),
          Done 200 ("Offer status updated to " +:+ statusWord st2) (withStatus o st2))
  ∧ twice = once.
Proof.
  intros Ho once twice. subst once twice.
  rewrite !(force_run s oid o) by done. split; [done |]. cbn [fst].
  rewrite (force_run _ oid (withStatus o st1)) by (cbn; apply lookup_insert_eq).
  cbn [withOffers offers vendors products items]. by rewrite insert_insert_eq.
Qed.

Lemma force_overrides_witness :
  let s := demoStore COMPLETED true true in
  let once := route (forceStatus "o1" {| sb_status := DRAFT |}) s in
  let twice := route (forceStatus "o1" {| sb_status := DRAFT |})
                 (route (forceStatus "o1" {| sb_status := DISPUTED |}) s).1 in
  offers s !! "o1" = Some (demoOffer COMPLETED true true)
  ∧ once = (withOffers s (<["o1" := demoOffer DRAFT true true]> (offers s)),
            Done 200 "Offer status updated to DRAFT" (demoOffer DRAFT true true))
  ∧ twice = once.
Proof.
  intros s once twice. split; [reflexivity |].
  exact (force_overrides s "o1" (demoOffer COMPLETED true true) DISPUTED DRAFT eq_refl).
Defined.

(** X15. Behind the admin middleware, a request without a user gets 401 and
    a request of a user whose role is not ADMIN gets 403, from the resolve
    route and from the override alike, with nothing written; for an ADMIN
    the routes run their handlers, the resolution being attributed to the
    user's id. *)
Theorem admin_gate (user : option User) (oid : string) (s : Store) :
  match user with
  | Some u =>
      if bool_decide (role u = ADMIN)
      then (∀ body, resolveRoute user oid body s
                    = route (resolveDispute (u_id u) oid body) s)
           ∧ (∀ body, forceRoute user oid body s = route (forceStatus oid body) s)
      else (∀ body, resolveRoute user oid body s = (s, Fail 403 "Admin access required"))
           ∧ (∀ body, forceRoute user oid body s = (s, Fail 403 "Admin access required"))
  | None =>
      (∀ body, resolveRoute user oid body s = (s, Fail 401 "Unauthenticated"))
      ∧ (∀ body, forceRoute user oid body s = (s, Fail 401 "Unauthenticated"))
  end.
Proof.
  unfold resolveRoute, forceRoute, requireAdminAuth.
  destruct user as [u |]; [| done].
  case_bool_decide as Hrole.
  - by rewrite (bool_decide_eq_false_2 (role u ≠ ADMIN)) by (intros H; by apply H).
  - by rewrite (bool_decide_eq_true_2 (role u ≠ ADMIN)).
Qed.

(** ** Chains of counters *)

(** X16. When a counter to an offer succeeds and a counter to that counter
    succeeds, the first was made by the recipient of the offer and the
    second by its initiator; the second counter-offer has the initiator and
    the recipient of the original offer again and the first counter-offer
    as its parent; the original and the first counter-offer are both
    COUNTERED and the second is SENT. *)
Theorem counter_twice_restores_roles (s s1 s2 : Store) (oid id1 id2 : string)
    (ids1 ids2 : nat → string) (v1 v2 : string) (b1 b2 : CounterBody)
    (c1 c2 : nat) (m1 m2 : string) (o child grand : BarterOffer) :
  offers s !! oid = Some o →
  route (counterOffer id1 ids1 v1 oid b1) s = (s1, Done c1 m1 child) →
  route (counterOffer id2 ids2 v2 id1 b2) s1 = (s2, Done c2 m2 grand) →
  v1 = recipientVendorId o
  ∧ v2 = initiatorVendorId o
  ∧ initiatorVendorId grand = initiatorVendorId o
  ∧ recipientVendorId grand = recipientVendorId o
  ∧ parentOfferId grand = Some id1
  ∧ parentOfferId child = Some oid
  ∧ status <$> offers s2 !! oid = Some COUNTERED
  ∧ status <$> offers s2 !! id1 = Some COUNTERED
  ∧ status <$> offers s2 !! id2 = Some SENT.
Proof.
  intros Ho H1 H2.
  apply counter_atomic in H1
    as [[_ (? & ? & [=])] | (o1 & rows1 & Ho1 & Hnew1 & -> & Hst1 & -> & [= -> -> ->])].
  simplify_eq.
  apply counter_atomic in H2
    as [[_ (? & ? & [=])] | (o2 & rows2 & Ho2 & Hnew2 & -> & Hst2 & -> & [= -> -> ->])].
  assert (id1 ≠ oid) as Hne1 by congruence.
  cbn [countered offers] in Ho2, Hnew2. rewrite lookup_insert_eq in Ho2. simplify_eq.
  assert (id2 ≠ id1) as Hne2.
  { intros ->. by rewrite lookup_insert_eq in Hnew2. }
  rewrite lookup_insert_ne in Hnew2 by done.
  assert (id2 ≠ oid) as Hne3.
  { intros ->. by rewrite lookup_insert_eq in Hnew2. }
  cbn [countered offers counterOf initiatorVendorId recipientVendorId parentOfferId].
  repeat split.
  - by rewrite lookup_insert_ne, lookup_insert_ne, lookup_insert_ne, lookup_insert_eq.
  - by rewrite lookup_insert_ne, lookup_insert_eq.
  - by rewrite lookup_insert_eq.
Qed.

Lemma counter_twice_restores_roles_witness :
  let s := demoStore SENT false false in
  let first := route (counterOffer "o2" demoIds "vendorB" "o1" demoCounterBody) s in
  let second := route (counterOffer "o3" demoIds2 "vendorA" "o2" demoReplyBody) first.1 in
  let child := counterOf "vendorB" "o1" (demoOffer SENT false false) demoCounterBody in
  let grand := counterOf "vendorA" "o2" child demoReplyBody in
  first = (first.1, Done 201 "Counter-offer sent" child)
  ∧ second = (second.1, Done 201 "Counter-offer sent" grand)
  ∧ initiatorVendorId grand = "vendorA"
  ∧ recipientVendorId grand = "vendorB"
  ∧ status <$> offers second.1 !! "o1" = Some COUNTERED
  ∧ status <$> offers second.1 !! "o2" = Some COUNTERED
  ∧ status <$> offers second.1 !! "o3" = Some SENT.
Proof.
  intros s first second child grand.
  assert (first = (first.1, Done 201 "Counter-offer sent" child)) as H1
    by (vm_compute; reflexivity).
  assert (second = (second.1, Done 201 "Counter-offer sent" grand)) as H2
    by (vm_compute; reflexivity).
  split; [exact H1 |]. split; [exact H2 |].
  destruct (counter_twice_restores_roles s first.1 second.1 "o1" "o2" "o3" demoIds demoIds2
              "vendorB" "vendorA" demoCounterBody demoReplyBody 201 201
              "Counter-offer sent" "Counter-offer sent" (demoOffer SENT false false)
              child grand eq_refl H1 H2)
    as (_ & _ & Hi & Hr & _ & _ & Ha & Hb & Hc).
  by repeat split.
Defined.

(** ** Item rows *)

Lemma rows_of_other (oid other : string) (rows : list BarterItem) :
  Forall (λ r, offerId r = other) rows → other ≠ oid →
  filter (λ r, offerId r = oid) rows = [].
Proof.
  induction 1 as [| r rows Hr _ IH]; intros Hne; [done |].
  rewrite filter_cons_False by congruence. by apply IH.
Qed.

Lemma rows_of_own (oid : string) (rows : list BarterItem) :
  Forall (λ r, offerId r = oid) rows → filter (λ r, offerId r = oid) rows = rows.
Proof.
  induction 1 as [| r rows Hr _ IH]; [done |].
  rewrite filter_cons_True by done. by rewrite IH.
Qed.

Lemma rows_after_delete (oid other : string) (l : list BarterItem) :
  filter (λ r, offerId r = oid) (filter (λ r, offerId r ≠ other) l)
  = if decide (other = oid) then [] else filter (λ r, offerId r = oid) l.
Proof.
  induction l as [| r l IH]; [by case_decide |].
  destruct (decide (offerId r = other)) as [Hr | Hr].
  - rewrite (filter_cons_False (λ r, offerId r ≠ other)) by (intros H; by apply H).
    rewrite IH. case_decide as Ho; [done |].
    rewrite filter_cons_False by congruence. done.
  - rewrite (filter_cons_True (λ r, offerId r ≠ other)) by done.
    destruct (decide (offerId r = oid)) as [Hr' | Hr'].
    + rewrite !filter_cons_True by done. rewrite IH.
      case_decide; [congruence | done].
    + rewrite !filter_cons_False by done. exact IH.
Qed.

(** The items that a counter writes. *)
Lemma counter_items (s : Store) (newId : string) (ids : nat → string)
    (vendor oid : string) (body : CounterBody) :
  let s' := (route (counterOffer newId ids vendor oid body) s).1 in
  (s' = s)
  ∨ ∃ (o : BarterOffer) (rows : list BarterItem),
      offers s !! oid = Some o
      ∧ offers s !! newId = None
      ∧ Forall (λ r, offerId r = newId) rows
      ∧ rows ≠ []
      ∧ s' = countered s oid newId o (counterOf vendor oid o body) rows.
Proof.
  cbn zeta.
  destruct (offers s !! oid) as [o |] eqn:Ho; [| run_handler; rewrite Ho; by left].
  destruct (decide (vendor = recipientVendorId o)) as [-> | Hv].
  - destruct (bool_decide (status o ∈ [SENT; COUNTERED])) eqn:Hst.
    + assert (status o = SENT ∨ status o = COUNTERED) as Hst'
        by (destruct (status o); try done; (by left) || (by right)).
      destruct (counterOfferSchema body) eqn:Hbody.
      * rewrite (counter_run s newId ids oid body o Ho Hst' Hbody).
        destruct (buildItems _ newId ids 0 (kb_items body)) as [rows |] eqn:Hrows;
          [| by left].
        destruct (offers s !! newId) eqn:Hnew; [by left |].
        cbn zeta. destruct (_ && _); [right | by left].
        apply buildItems_rows in Hrows as [Hall Hlen].
        exists o, rows. repeat split; try done.
        intros ->. apply andb_true_iff in Hbody as [Hitems _].
        apply schema_items_nonempty in Hitems. by destruct (kb_items body).
      * run_handler. rewrite Ho, Hst, Hbody.
        rewrite (bool_decide_eq_false_2 (_ ≠ _)) by (intros H; by apply H).
        by left.
    + run_handler. rewrite Ho, Hst.
      rewrite (bool_decide_eq_false_2 (_ ≠ _)) by (intros H; by apply H).
      by left.
  - run_handler. rewrite Ho.
    rewrite (bool_decide_eq_true_2 (_ ≠ _)) by congruence.
    by left.
Qed.

(** The stores an operation can leave. *)

Lemma update_same_items (s s' : Store) (oid : string) (data : list Assign)
    (r : option BarterOffer) :
  update oid data s = (s', r) →
  s' = s ∨ ∃ o, offers s !! oid = Some o
                ∧ s' = withOffers s (<[oid := assignAll o data]> (offers s)).
Proof. intros Hu. apply update_shape in Hu as [[-> _] | (o & Ho & -> & _)]; by eauto. Qed.

Ltac shape_handler :=
  repeat case_match; simplify_eq/=;
  try (by left);
  try (match goal with
       | H : update _ _ _ = _ |- _ =>
           apply update_same_items in H as [-> | (? & ? & ->)]
       end; [by left | right; by eauto]).

Lemma party_shape (a : PartyAction) (vendor oid : string) (s : Store) :
  (∀ n i b, a ≠ Counter n i b) →
  let s' := (perform a vendor oid s).1 in
  s' = s ∨ ∃ o o', offers s !! oid = Some o ∧ s' = withOffers s (<[oid := o']> (offers s)).
Proof.
  intros Hnc. cbn zeta.
  destruct a as [| | | newId ids body | | | body]; [| | | by destruct (Hnc newId ids body) | | |];
    run_handler; shape_handler.
Qed.

Lemma resolve_shape (adminId oid : string) (body : ResolveBody) (s : Store) :
  let s' := (route (resolveDispute adminId oid body) s).1 in
  s' = s ∨ ∃ o o', offers s !! oid = Some o ∧ s' = withOffers s (<[oid := o']> (offers s)).
Proof. cbn zeta; run_handler; shape_handler. Qed.

Lemma force_shape (oid : string) (body : StatusBody) (s : Store) :
  let s' := (route (forceStatus oid body) s).1 in
  s' = s ∨ ∃ o o', offers s !! oid = Some o ∧ s' = withOffers s (<[oid := o']> (offers s)).
Proof. cbn zeta; run_handler; shape_handler. Qed.

Lemma update_route_shape (s : Store) (ids : nat → string) (vendor oid : string)
    (body : UpdateBody) :
  let s' := (route (updateOffer ids vendor oid body) s).1 in
  s' = s
  ∨ ∃ o, offers s !! oid = Some o
         ∧ status o = DRAFT
         ∧ ((∃ o', s' = withOffers s (<[oid := o']> (offers s)))
            ∨ ∃ rows, Forall (λ r, offerId r = oid) rows
                      ∧ rows ≠ []
                      ∧ ∃ m, (m = offers s ∨ ∃ o', m = <[oid := o']> (offers s))
                             ∧ s' = {| vendors := vendors s; products := products s;
                                       offers := m;
                                       items := filter (λ r, offerId r ≠ oid) (items s)
                                                ++ rows |}).
Proof.
  cbn zeta. run_handler.
  destruct (offers s !! oid) as [o |] eqn:Ho; [| by left].
  case_bool_decide; [by left |].
  case_bool_decide as Hst; [by left |].
  assert (status o = DRAFT) as Hdraft by (by destruct (decide (status o = DRAFT))).
  destruct (negb (updateOfferSchema body)) eqn:Hbody; [by left |].
  apply negb_false_iff in Hbody.
  unfold findProducts, transaction, deleteMany, createMany, throw, mbind, Db_bind, mret, Db_ret.
  cbn beta.
  destruct (ub_items body) as [l |] eqn:Hitems.
  - destruct (buildItems _ oid ids 0 l) as [rows |] eqn:Hrows; [| by left].
    apply buildItems_rows in Hrows as [Hall Hlen].
    assert (rows ≠ []) as Hne.
    { intros ->. unfold updateOfferSchema in Hbody. rewrite Hitems in Hbody.
      apply andb_true_iff in Hbody as [Hl _]. apply schema_items_nonempty in Hl.
      by destruct l. }
    cbn [withItems items]. destruct (forallb rowFits rows); [| by left].
    match goal with |- context [update ?i ?d ?st] =>
      destruct (update i d st) as [s1 [r |]] eqn:Hu;
      apply update_same_items in Hu as [-> | (o1 & Ho1 & ->)] end;
      cbn; right; exists o; (split; [done |]); (split; [done |]); right;
      exists rows; (split; [done |]); (split; [done |]);
      eexists; (split; [| reflexivity]); by eauto.
  - match goal with |- context [update ?i ?d ?st] =>
      destruct (update i d st) as [s1 [r |]] eqn:Hu;
      apply update_same_items in Hu as [-> | (o1 & Ho1 & ->)] end;
      cbn; try (by left); right; exists o; (split; [done |]); (split; [done |]); left;
      by eauto.
Qed.

Section Rows.
Context (s : Store) (oid : string).

Lemma rows_appended (other : string) (rows : list BarterItem) :
  Forall (λ r, offerId r = other) rows → other ≠ oid →
  filter (λ r, offerId r = oid) (items s ++ rows) = rowsOf s oid.
Proof.
  intros Hall Hne. rewrite filter_app, (rows_of_other oid other rows) by done.
  by rewrite app_nil_r.
Qed.

(** The rows of an existing offer stay, unless the offer is a draft and gets
    new ones. *)
Lemma rows_step (op : Op) (o : BarterOffer) :
  offers s !! oid = Some o →
  rowsOf (run op s).1 oid = rowsOf s oid
  ∨ (status o = DRAFT ∧ rowsOf (run op s).1 oid ≠ []).
Proof.
  intros Ho.
  destruct op as [newId ids vendor body | ids vendor oid' body | a vendor oid'
                 | vendor oid' | adminId oid' body | oid' body]; cbn [run].
  - destruct (create_shape s newId ids vendor body) as [-> | (o' & rows & Hnew & Hall & _ & ->)];
      [by left |].
    left. unfold rowsOf at 1; cbn [items]. apply rows_appended with (other := newId);
      [done | congruence].
  - destruct (update_route_shape s ids vendor oid' body)
      as [-> | (o1 & Ho1 & Hst & [[o' ->] | (rows & Hall & Hne & m & _ & ->)])];
      [by left | by left |].
    unfold rowsOf at 1 3; cbn [items]. rewrite filter_app, rows_after_delete.
    destruct (decide (oid' = oid)) as [-> | Hne'].
    + right. simplify_eq. split; [done |]. by rewrite rows_of_own.
    + left. rewrite (rows_of_other oid oid' rows) by done. by rewrite app_nil_r.
  - destruct a as [| | | newId ids body | | | body].
    4: { unfold perform.
         destruct (counter_items s newId ids vendor oid' body)
           as [-> | (o1 & rows & Ho1 & Hnew & Hall & _ & ->)]; [by left |].
         left. unfold rowsOf at 1; cbn [items countered].
         apply rows_appended with (other := newId); [done | congruence]. }
    all: match goal with
         | |- context [perform ?a _ _ _] =>
             destruct (party_shape a vendor oid' s) as [-> | (? & ? & _ & ->)];
             [done | by left | by left]
         end.
  - rewrite getOffer_reads. by left.
  - destruct (resolve_shape adminId oid' body s) as [-> | (? & ? & _ & ->)]; by left.
  - destruct (force_shape oid' body s) as [-> | (? & ? & _ & ->)]; by left.
Qed.

(** An offer that an operation brings into the store comes with rows. *)
Lemma rows_born (op : Op) :
  offers s !! oid = None →
  is_Some (offers (run op s).1 !! oid) →
  rowsOf (run op s).1 oid ≠ [].
Proof.
  intros Ho.
  assert (∀ rows : list BarterItem,
            Forall (λ r, offerId r = oid) rows → rows ≠ [] →
            filter (λ r, offerId r = oid) (items s ++ rows) ≠ []) as Hnew.
  { intros rows Hall Hne. rewrite filter_app, (rows_of_own oid rows) by done.
    intros [_ ?]%app_eq_nil. done. }
  assert (∀ (oid' : string) (o' : BarterOffer),
            is_Some (offers s !! oid') →
            ¬ is_Some (<[oid' := o']> (offers s) !! oid)) as Hold.
  { intros oid' o' [o1 Ho1]. rewrite lookup_insert_ne by congruence.
    rewrite Ho. by intros [? [=]]. }
  destruct op as [newId ids vendor body | ids vendor oid' body | a vendor oid'
                 | vendor oid' | adminId oid' body | oid' body]; cbn [run].
  - destruct (create_shape s newId ids vendor body) as [-> | (o' & rows & _ & Hall & Hne & ->)];
      [rewrite Ho; by intros [? [=]] |].
    cbn [offers]. intros Hsome.
    destruct (decide (newId = oid)) as [-> | Hne'];
      [by apply Hnew | rewrite lookup_insert_ne, Ho in Hsome by done; by destruct Hsome].
  - destruct (update_route_shape s ids vendor oid' body)
      as [-> | (o1 & Ho1 & Hst & [[o' ->] | (rows & Hall & Hne & m & [-> | [o' ->]] & ->)])];
      cbn [offers withOffers]; intros Hsome;
      try (rewrite Ho in Hsome; by destruct Hsome);
      by destruct (Hold oid' o' (mk_is_Some _ _ Ho1)).
  - destruct a as [| | | newId ids body | | | body].
    4: { unfold perform.
         destruct (counter_items s newId ids vendor oid' body)
           as [-> | (o1 & rows & Ho1 & _ & Hall & Hne & ->)];
           [rewrite Ho; by intros [? [=]] |].
         cbn [offers countered]. intros Hsome.
         destruct (decide (newId = oid)) as [-> | Hne']; [by apply Hnew |].
         rewrite lookup_insert_ne in Hsome by done.
         by destruct (Hold oid' (withStatus o1 COUNTERED) (mk_is_Some _ _ Ho1)). }
    all: match goal with
         | |- context [perform ?a _ _ _] =>
             destruct (party_shape a vendor oid' s) as [-> | (o1 & o' & Ho1 & ->)];
             [done | rewrite Ho; by intros [? [=]] |];
             cbn [offers withOffers]; intros Hsome;
             by destruct (Hold oid' o' (mk_is_Some _ _ Ho1))
         end.
  - rewrite getOffer_reads, Ho. by intros [? [=]].
  - destruct (resolve_shape adminId oid' body s) as [-> | (o1 & o' & Ho1 & ->)];
      [rewrite Ho; by intros [? [=]] |].
    cbn [offers withOffers]; intros Hsome.
    by destruct (Hold oid' o' (mk_is_Some _ _ Ho1)).
  - destruct (force_shape oid' body s) as [-> | (o1 & o' & Ho1 & ->)];
      [rewrite Ho; by intros [? [=]] |].
    cbn [offers withOffers]; intros Hsome.
    by destruct (Hold oid' o' (mk_is_Some _ _ Ho1)).
Qed.

End Rows.


(** X18. If every offer of the store has at least one item row, so has
    every offer of the store after any operation; the offers that creation
    and counter insert come with their rows. *)
Theorem offers_keep_items (op : Op) (s : Store) :
  offersHaveItems s → offersHaveItems (run op s).1.
Proof.
  intros Hinv oid o' Ho'.
  destruct (offers s !! oid) as [o |] eqn:Ho.
  - destruct (rows_step s oid op o Ho) as [-> | [_ ?]]; [by eapply Hinv | done].
  - apply rows_born; [done | by eauto].
Qed.


Lemma demo_offers_have_items (st : BarterStatus) (fi fr : bool) :
  offersHaveItems (demoStore st fi fr).
Proof.
  intros oid o. cbn [offers demoStore].
  intros [[<- _] | [_ H]]%lookup_insert_Some; [done |].
  by rewrite lookup_empty in H.
Qed.

Lemma offers_keep_items_witness :
  let s := demoStore DRAFT false false in
  offersHaveItems s
  ∧ offersHaveItems (run (OpCreate "o2" demoIds "vendorA" directedGapBody) s).1.
Proof.
  intros s. split; [apply demo_offers_have_items |].
  exact (offers_keep_items _ s (demo_offers_have_items DRAFT false false)).
Defined.

(** ** Updating a draft *)



(** ** The projection and the listing *)



Lemma wordStatus_inv (w : string) (st : BarterStatus) :
  wordStatus w = Some st → w = statusWord st.
Proof.
  unfold wordStatus. repeat case_bool_decide; intros [= <-]; by subst.
Qed.

Lemma listWhere_spec (vendor : string) (st : option BarterStatus) (qtype : option string)
    (o : BarterOffer) :
  listWhere vendor st qtype o = true ↔
  match st with Some v => status o = v | None => True end
  ∧ (if bool_decide (qtype = Some "sent") then initiatorVendorId o = vendor
     else if bool_decide (qtype = Some "received") then recipientVendorId o = vendor
     else initiatorVendorId o = vendor ∨ recipientVendorId o = vendor).
Proof.
  unfold listWhere. rewrite andb_true_iff.
  assert (match st with Some v => bool_decide (status o = v) | None => true end = true
          ↔ match st with Some v => status o = v | None => True end) as ->
    by (destruct st; [apply bool_decide_eq_true | done]).
  destruct (bool_decide (qtype = Some "sent")); [by rewrite bool_decide_eq_true |].
  destruct (bool_decide (qtype = Some "received")); [by rewrite bool_decide_eq_true |].
  by rewrite orb_true_iff, !bool_decide_eq_true.
Qed.

(** X21. The listing reads only, and when it succeeds it has an entry for an
    offer exactly when the vendor satisfies the party condition ("sent": is
    the initiator; "received": is the recipient; otherwise: is either) and
    the offer is in the state the query names, if it names one; the entry is
    the summary of that offer. An offer of two other vendors is never
    listed. *)
Theorem listing_shows_own_offers (s s' : Store) (vendor : string)
    (qstatus qtype : option string) (entries : gmap string OfferSummary) :
  listRoute vendor qstatus qtype s = (s', Listed entries) →
  s' = s
  ∧ (∀ oid e,
       entries !! oid = Some e ↔
       ∃ o, offers s !! oid = Some o
            ∧ e = summarize s vendor oid o
            ∧ (qstatus = None ∨ qstatus = Some "" ∨ qstatus = Some (statusWord (status o)))
            ∧ (if bool_decide (qtype = Some "sent") then initiatorVendorId o = vendor
               else if bool_decide (qtype = Some "received") then recipientVendorId o = vendor
               else initiatorVendorId o = vendor ∨ recipientVendorId o = vendor))
  ∧ (∀ oid o, offers s !! oid = Some o →
              initiatorVendorId o ≠ vendor → recipientVendorId o ≠ vendor →
              entries !! oid = None).
Proof.
  intros Hrun.
  assert (s' = s
          ∧ ∃ st : option BarterStatus,
              (∀ o, (match st with Some v => status o = v | None => True end)
                    ↔ (qstatus = None ∨ qstatus = Some ""
                       ∨ qstatus = Some (statusWord (status o))))
              ∧ entries = map_imap (λ oid o, if listWhere vendor st qtype o
                                             then Some (summarize s vendor oid o)
                                             else None) (offers s))
    as (-> & st & Hst & ->).
  { unfold listRoute, listOffers in Hrun. destruct qstatus as [w |].
    - destruct (decide (w = "")) as [-> | Hw].
      + rewrite bool_decide_eq_true_2 in Hrun by done. injection Hrun as <- <-.
        split; [done |]. exists None. split; [| done]. intros o. split; [by eauto | done].
      + rewrite bool_decide_eq_false_2 in Hrun by done.
        destruct (wordStatus w) as [st |] eqn:Hword; [| done].
        apply wordStatus_inv in Hword as ->. injection Hrun as <- <-.
        split; [done |]. exists (Some st). split; [| done]. intros o. split.
        * intros <-. by eauto.
        * intros [[=] | [[= Hemp] | [= Heq]]]; [done |].
          destruct st, (status o); by try discriminate Heq.
    - injection Hrun as <- <-. split; [done |]. exists None. split; [| done].
      intros o. split; [by eauto | done]. }
  split; [done |]. split.
  - intros oid e. rewrite map_lookup_imap.
    destruct (offers s !! oid) as [o |]; cbn; [| split; [done | by intros (? & [=] & _)]].
    destruct (listWhere vendor st qtype o) eqn:Hw.
    + apply listWhere_spec in Hw as [Hs Ht]. apply Hst in Hs. split.
      * intros [= <-]. by eauto 10.
      * by intros (o' & [= <-] & -> & _).
    + split; [done |]. intros (o' & [= <-] & _ & Hs & Ht).
      apply Hst in Hs. assert (listWhere vendor st qtype o = true) as Hyes
        by (by apply listWhere_spec).
      congruence.
  - intros oid o Ho Hi Hr. rewrite map_lookup_imap, Ho. cbn.
    destruct (listWhere vendor st qtype o) eqn:Hw; [| done].
    apply listWhere_spec in Hw as [_ Ht].
    destruct (bool_decide (qtype = Some "sent")); [done |].
    destruct (bool_decide (qtype = Some "received")); [done |].
    by destruct Ht.
Qed.

Lemma listing_shows_own_offers_witness :
  let s := demoStore SENT false false in
  let entries := <["o1" := summarize s "vendorB" "o1" (demoOffer SENT false false)]> ∅ in
  listRoute "vendorB" (Some "SENT") (Some "received") s = (s, Listed entries)
  ∧ (∀ oid e,
       entries !! oid = Some e ↔
       ∃ o, offers s !! oid = Some o
            ∧ e = summarize s "vendorB" oid o
            ∧ (Some "SENT" = None ∨ Some "SENT" = Some ""
               ∨ Some "SENT" = Some (statusWord (status o)))
            ∧ recipientVendorId o = "vendorB").
Proof.
  intros s entries.
  assert (listRoute "vendorB" (Some "SENT") (Some "received") s = (s, Listed entries)) as Hrun
    by (vm_compute; reflexivity).
  split; [exact Hrun |].
  exact (proj1 (proj2 (listing_shows_own_offers s s "vendorB" (Some "SENT") (Some "received")
                         entries Hrun))).
Defined.

(** X22. A status in the query of the listing that is non-empty and names
    none of the nine states ends in the reply 500, with nothing written. *)
Theorem listing_unknown_status (s : Store) (vendor w : string) (qtype : option string) :
  w ≠ "" →
  (∀ st, w ≠ statusWord st) →
  listRoute vendor (Some w) qtype s = (s, ListFail 500 "Internal server error").
Proof.
  intros Hw Hno. unfold listRoute, listOffers. rewrite bool_decide_eq_false_2 by done.
  destruct (wordStatus w) as [st |] eqn:Hst; [| done].
  apply wordStatus_inv in Hst. by destruct (Hno st).
Qed.

Lemma listing_unknown_status_witness :
  "sent" ≠ ""
  ∧ (∀ st, "sent" ≠ statusWord st)
  ∧ listRoute "vendorA" (Some "sent") None (demoStore SENT false false)
    = (demoStore SENT false false, ListFail 500 "Internal server error").
Proof.
  assert ("sent" ≠ "") as Hw by congruence.
  assert (∀ st, "sent" ≠ statusWord st) as Hno by (intros []; cbn; congruence).
  split; [exact Hw |]. split; [exact Hno |].
  exact (listing_unknown_status (demoStore SENT false false) "vendorA" "sent" None Hw Hno).
Defined.

(** X23. In an entry of the listing the offered and the requested counts add
    up to the item count, which is the number of rows of the offer; for a
    party of an offer with two distinct parties, isInitiator tells whether
    the vendor is the initiator and otherVendor is the other party. *)
Theorem summary_counts (s : Store) (vendor oid : string) (o : BarterOffer) :
  let e := summarize s vendor oid o in
  (offeredCount e + requestedCount e = itemCount e)%nat
  ∧ itemCount e = length (rowsOf s oid)
  ∧ (os_isInitiator e = true ↔ vendor = initiatorVendorId o)
  ∧ (initiatorVendorId o ≠ recipientVendorId o →
     (vendor = initiatorVendorId o → otherVendor e = vendorName s (recipientVendorId o))
     ∧ (vendor = recipientVendorId o → otherVendor e = vendorName s (initiatorVendorId o))).
Proof.
  cbn zeta. unfold summarize, rowsOf; cbn. split; [| split; [done |]].
  - induction (filter _ (items s)) as [| r l IH]; [done |].
    cbn [List.filter]. destruct (isOffered r); cbn [negb length]; lia.
  - split.
    + rewrite bool_decide_eq_true. split; by intros ->.
    + intros Hne. split; intros ->.
      * by rewrite bool_decide_eq_true_2.
      * by rewrite bool_decide_eq_false_2.
Qed.

Lemma summary_counts_witness :
  let s := demoStore SENT false false in
  let e := summarize s "vendorB" "o1" (demoOffer SENT false false) in
  (offeredCount e + requestedCount e = itemCount e)%nat
  ∧ itemCount e = 2%nat
  ∧ os_isInitiator e = false
  ∧ otherVendor e = Some {| vn_id := "vendorA"; vn_businessName := "Ade Farms" |}.
Proof.
  intros s e.
  destruct (summary_counts s "vendorB" "o1" (demoOffer SENT false false))
    as (Hsum & Hcount & _ & Hother).
  split; [exact Hsum |]. split; [exact Hcount |]. split; [reflexivity |].
  refine (proj2 (Hother _) eq_refl). cbn. congruence.
Defined.

(** ** Admin statistics *)

Lemma tally_insert (m : gmap string BarterOffer) (i : string) (x : BarterOffer)
    (st : BarterStatus) :
  m !! i = None →
  size (filter (λ kv : string * BarterOffer, status kv.2 = st) (<[i := x]> m))
  = ((if bool_decide (status x = st) then 1 else 0)
     + size (filter (λ kv : string * BarterOffer, status kv.2 = st) m))%nat.
Proof.
  intros Hi. rewrite map_filter_insert. cbn [snd].
  case_decide as Hst.
  - rewrite bool_decide_eq_true_2 by done.
    rewrite map_size_insert_None; [done |].
    apply map_lookup_filter_None. by left.
  - rewrite bool_decide_eq_false_2 by done. by rewrite delete_id.
Qed.

Lemma tally_all (m : gmap string BarterOffer) :
  let n st := size (filter (λ kv : string * BarterOffer, status kv.2 = st) m) in
  (n DRAFT + n SENT + n ACCEPTED + n IN_PROGRESS + n COMPLETED + n DISPUTED
   + n REJECTED + n CANCELLED + n COUNTERED = size m)%nat.
Proof.
  cbn zeta. induction m as [| i x m Hi IH] using map_ind.
  - by rewrite !map_filter_empty, !map_size_empty.
  - rewrite !tally_insert, map_size_insert_None by done.
    rewrite <- IH.
    destruct (status x);
      repeat match goal with
             | |- context [bool_decide ?P] =>
                 let b := eval vm_compute in (bool_decide P) in
                 change (bool_decide P) with b
             end; cbv iota; lia.
Qed.

(** X24. The statistics read only; their total is the sum of the eight
    counts they report, and it leaves the COUNTERED offers out: the total
    plus the number of COUNTERED offers is the number of offers. *)
Theorem stats_leave_countered_out (s : Store) :
  ∃ st, getStats s = (s, Some st)
        ∧ (total st = draft st + sent st + accepted st + inProgress st + completed st
                      + disputed st + rejected st + cancelled st)%nat
        ∧ (total st
           + size (filter (λ kv : string * BarterOffer, status kv.2 = COUNTERED) (offers s))
           = size (offers s))%nat.
Proof.
  eexists. split; [reflexivity |]. split; [reflexivity |].
  cbn [total]. apply tally_all.
Qed.
